(** * PyTCP packet codecs: ICMPv4 ([ps_icmpv4.py]) and UDP ([ps_udp.py])

    A shallow embedding of the two protocol support classes, with Python's
    exceptions made explicit in a small error monad, byte strings as
    [list byte], Python integers as [Z] and the mutable [self] of
    [get_raw_packet] threaded through as a returned packet value. *)

From Stdlib Require Import ZArith Lia Bool String List.
From Stdlib Require Import Strings.Byte DecimalString.
Import ListNotations.

Open Scope Z_scope.

(** ** Exceptions *)

Inductive exn : Type :=
| IndexError
| StructError
| AttributeError
| TypeError.

Inductive result (A : Type) : Type :=
| Ok (a : A)
| Raise (e : exn).

Arguments Ok {A} a.
Arguments Raise {A} e.

Definition bind {A B : Type} (m : result A) (k : A -> result B) : result B :=
  match m with
  | Ok a => k a
  | Raise e => Raise e
  end.

Notation "x <- m ;; k" := (bind m (fun x => k))
  (at level 61, m at next level, right associativity).

(** ** Python values and byte strings *)

(** An argument that is either [None] or an [int]. *)
Inductive pyval : Type :=
| PyNone
| PyInt (z : Z).

(** [x == n] for an integer constant [n]; [None == n] is [False]. *)
Definition py_eqb (x : pyval) (n : Z) : bool :=
  match x with
  | PyNone => false
  | PyInt z => z =? n
  end.

(** [str(z)] for an [int]: decimal digits, with a leading minus sign for a
    negative number. *)
Definition py_str_int (z : Z) : string := NilZero.string_of_int (Z.to_int z).

(** A replacement field [{x}] of an f-string for a value that is [None] or an
    [int]. *)
Definition py_format (x : pyval) : string :=
  match x with
  | PyNone => "None"
  | PyInt z => py_str_int z
  end.

Definition byte_to_Z (b : byte) : Z := Z.of_N (Byte.to_N b).

Definition byte_of_Z (z : Z) : byte :=
  match Byte.of_N (Z.to_N z) with
  | Some b => b
  | None => x00
  end.

Arguments byte_to_Z : simpl never.
Arguments byte_of_Z : simpl never.

(** [bs[lo:hi]] for non-negative bounds: out-of-range bounds are clamped. *)
Definition slice {A : Type} (lo hi : nat) (bs : list A) : list A :=
  firstn (hi - lo) (skipn lo bs).

(** [bs[i]] on a byte string: the byte as an [int], [IndexError] past the end. *)
Definition index (bs : list byte) (i : nat) : result Z :=
  match nth_error bs i with
  | Some b => Ok (byte_to_Z b)
  | None => Raise IndexError
  end.

(** [l[i] = v] on a list. *)
Definition list_set (l : list Z) (i : nat) (v : Z) : result (list Z) :=
  if (i <? List.length l)%nat
  then Ok (firstn i l ++ v :: skipn (S i) l)
  else Raise IndexError.

(** [sum(l)]. *)
Definition sum (l : list Z) : Z := fold_left Z.add l 0.

(** ** The [struct] module, network byte order ("!") *)

Inductive fmt : Type :=
| fB   (* unsigned char,  1 byte  *)
| fH   (* unsigned short, 2 bytes *)
| fL.  (* unsigned long,  4 bytes *)

Definition size (f : fmt) : nat :=
  match f with
  | fB => 1
  | fH => 2
  | fL => 4
  end.

Fixpoint calcsize (fs : list fmt) : nat :=
  match fs with
  | [] => 0
  | f :: fs' => size f + calcsize fs'
  end.

Fixpoint be_decode (acc : Z) (bs : list byte) : Z :=
  match bs with
  | [] => acc
  | b :: bs' => be_decode (acc * 256 + byte_to_Z b) bs'
  end.

Fixpoint be_encode (n : nat) (v : Z) : list byte :=
  match n with
  | O => []
  | S n' => byte_of_Z ((v / 256 ^ Z.of_nat n') mod 256) :: be_encode n' v
  end.

Definition pack_item (f : fmt) (v : pyval) : result (list byte) :=
  match v with
  | PyNone => Raise StructError
  | PyInt z =>
      if (0 <=? z) && (z <? 256 ^ Z.of_nat (size f))
      then Ok (be_encode (size f) z)
      else Raise StructError
  end.

(** [struct.pack("! ...", *vs)] *)
Fixpoint struct_pack (fs : list fmt) (vs : list pyval) : result (list byte) :=
  match fs, vs with
  | [], [] => Ok []
  | f :: fs', v :: vs' =>
      b <- pack_item f v ;;
      bs <- struct_pack fs' vs' ;;
      Ok (b ++ bs)
  | _, _ => Raise StructError
  end.

Fixpoint unpack_items (fs : list fmt) (bs : list byte) : list Z :=
  match fs with
  | [] => []
  | f :: fs' =>
      be_decode 0 (firstn (size f) bs) :: unpack_items fs' (skipn (size f) bs)
  end.

(** [struct.unpack("! ...", bs)]: the buffer must have exactly the size the
    format asks for. *)
Definition struct_unpack (fs : list fmt) (bs : list byte) : result (list Z) :=
  if (List.length bs =? calcsize fs)%nat
  then Ok (unpack_items fs bs)
  else Raise StructError.

(** [struct.unpack("!H", bs)[0]] and [struct.unpack("!L", bs)[0]] *)
Definition unpack1 (f : fmt) (bs : list byte) : result Z :=
  l <- struct_unpack [f] bs ;;
  match l with
  | z :: _ => Ok z
  | [] => Raise IndexError
  end.

(** ** Collaborators that live outside the two modules *)

(** Modelled from the spec: the [Tracker] class of module [tracker], which is
    not part of the sources at hand.  "A small record carrying a direction tag
    (RX|TX), a monotonically assigned id, and an optional back-link to an
    originating tracker." *)
#[warnings="-register-all"]
Inductive Tracker : Type :=
| mkTracker (prefix : string) (serial : N) (echo_tracker : option Tracker).

Definition tr_prefix (t : Tracker) : string :=
  match t with mkTracker p _ _ => p end.

Definition tr_serial (t : Tracker) : N :=
  match t with mkTracker _ s _ => s end.

Definition tr_echo_tracker (t : Tracker) : option Tracker :=
  match t with mkTracker _ _ e => e end.

(** Modelled from the spec: [Tracker(prefix, echo_tracker)] takes the next id
    from a process-wide counter, which is threaded explicitly. *)
Definition Tracker_new (prefix : string) (echo_tracker : option Tracker)
    (serial_count : N) : Tracker * N :=
  (mkTracker prefix serial_count echo_tracker, (serial_count + 1)%N).

(** The attributes of the enclosing (IPv4) packet that the two constructors
    read on the parse path. *)
Record ParentPacket : Type := mkParentPacket {
  pp_tracker : Tracker;
  pp_raw_data : list byte;
  pp_ip_pseudo_header : list byte
}.

(** ** [ps_udp.py] *)

Module ps_udp.

Definition UDP_HEADER_LEN : nat := 8.

(** The attributes of a [UdpPacket] object.  [ip_pseudo_header] is only
    assigned on the parse path. *)
Record UdpPacket : Type := mkUdpPacket {
  tracker : Tracker;
  raw_data : list byte;
  ip_pseudo_header : option (list byte);
  udp_sport : pyval;
  udp_dport : pyval;
  udp_len : Z;
  udp_cksum : Z
}.

Definition set_udp_cksum (p : UdpPacket) (c : Z) : UdpPacket :=
  mkUdpPacket (tracker p) (raw_data p) (ip_pseudo_header p)
    (udp_sport p) (udp_dport p) (udp_len p) c.

(** [UdpPacket.__init__], parse path ([if parent_packet:]). *)
Definition init_parse (parent_packet : ParentPacket) : result UdpPacket :=
  let raw_packet := pp_raw_data parent_packet in
  let raw_header := firstn UDP_HEADER_LEN raw_packet in
  hi <- unpack1 fH (slice 4 6 raw_header) ;;
  let raw_data := slice UDP_HEADER_LEN (Z.to_nat hi) raw_packet in
  let ip_pseudo_header := pp_ip_pseudo_header parent_packet in
  udp_sport <- unpack1 fH (slice 0 2 raw_header) ;;
  udp_dport <- unpack1 fH (slice 2 4 raw_header) ;;
  udp_len <- unpack1 fH (slice 4 6 raw_header) ;;
  udp_cksum <- unpack1 fH (slice 6 8 raw_header) ;;
  Ok (mkUdpPacket (pp_tracker parent_packet) raw_data (Some ip_pseudo_header)
        (PyInt udp_sport) (PyInt udp_dport) udp_len udp_cksum).

(** [UdpPacket.__init__], build path.  [raw_data] defaults to [None], on
    which [len] raises [TypeError]; the tracker has been created by then. *)
Definition init_build (udp_sport udp_dport : pyval)
    (raw_data : option (list byte)) (echo_tracker : option Tracker)
    (serial_count : N) : result UdpPacket * N :=
  let (tracker, serial_count') := Tracker_new "TX" echo_tracker serial_count in
  match raw_data with
  | None => (Raise TypeError, serial_count')
  | Some raw_data =>
      (Ok (mkUdpPacket tracker raw_data None udp_sport udp_dport
             (Z.of_nat (UDP_HEADER_LEN + List.length raw_data)) 0),
       serial_count')
  end.

(** [UdpPacket(parent_packet, udp_sport, udp_dport, raw_data, echo_tracker)].
    A parent packet object is truthy; [None] selects the build path. *)
Definition init (parent_packet : option ParentPacket)
    (udp_sport udp_dport : pyval) (raw_data : option (list byte))
    (echo_tracker : option Tracker) (serial_count : N)
    : result UdpPacket * N :=
  match parent_packet with
  | Some pp => (init_parse pp, serial_count)
  | None => init_build udp_sport udp_dport raw_data echo_tracker serial_count
  end.

(** [UdpPacket.raw_header] *)
Definition raw_header (self : UdpPacket) : result (list byte) :=
  struct_pack [fH; fH; fH; fH]
    [udp_sport self; udp_dport self; PyInt (udp_len self); PyInt (udp_cksum self)].

(** [UdpPacket.raw_packet] *)
Definition raw_packet (self : UdpPacket) : result (list byte) :=
  h <- raw_header self ;;
  Ok (h ++ raw_data self).

(** [~((cksum & 0xFFFF) + (cksum >> 16)) & 0xFFFF] *)
Definition fold_complement (cksum : Z) : Z :=
  Z.land (Z.lnot (Z.land cksum 0xFFFF + Z.shiftr cksum 16)) 0xFFFF.

(** [UdpPacket.compute_cksum] *)
Definition compute_cksum (self : UdpPacket) (ip_pseudo_header : list byte)
    : result Z :=
  rp <- raw_packet self ;;
  let cksum_data :=
    ip_pseudo_header ++ rp
      ++ (if Z.land (Z.of_nat (List.length rp)) 1 =? 0 then [] else [x00]) in
  cksum_data <-
    struct_unpack (repeat fH (Nat.shiftr (List.length cksum_data) 1)) cksum_data ;;
  cksum_data <- list_set cksum_data (6 + 3) 0 ;;
  let cksum := sum cksum_data in
  Ok (fold_complement cksum).

(** [UdpPacket.get_raw_packet]: stores the checksum in [self] and returns the
    bytes; the updated object is returned next to them. *)
Definition get_raw_packet (self : UdpPacket) (ip_pseudo_header : list byte)
    : result (UdpPacket * list byte) :=
  c <- compute_cksum self ip_pseudo_header ;;
  let self' := set_udp_cksum self c in
  rp <- raw_packet self' ;;
  Ok (self', rp).

(** [UdpPacket.__str__]: all three attributes exist on every packet. *)
Definition __str__ (self : UdpPacket) : string :=
  ("UDP " ++ py_format (udp_sport self) ++ " > " ++ py_format (udp_dport self)
     ++ ", len " ++ py_str_int (udp_len self))%string.

(** [UdpPacket.__len__] *)
Definition __len__ (self : UdpPacket) : result nat :=
  rp <- raw_packet self ;;
  Ok (List.length rp).

End ps_udp.

(** ** [ps_icmpv4.py] *)

Module ps_icmpv4.

Definition ICMP4_ECHOREPLY : Z := 0.
Definition ICMP4_UNREACHABLE : Z := 3.
Definition ICMP4_UNREACHABLE_PORT : Z := 3.
Definition ICMP4_ECHOREQUEST : Z := 8.

(** The attributes of an [Icmp4Packet] object.  The message body attributes
    exist only once a branch of the constructor has assigned them: [None]
    stands for an attribute the object does not have. *)
Record Icmp4Packet : Type := mkIcmp4Packet {
  tracker : Tracker;
  icmpv4_type : pyval;
  icmpv4_code : Z;
  icmpv4_cksum : Z;
  icmpv4_ec_id : option pyval;
  icmpv4_ec_seq : option pyval;
  icmpv4_ec_raw_data : option (list byte);
  icmpv4_un_reserved : option Z;
  icmpv4_un_raw_data : option (list byte);
  unknown_message : option (list byte)
}.

(** Reading an attribute of [self]. *)
Definition getattr {A : Type} (a : option A) : result A :=
  match a with
  | Some x => Ok x
  | None => Raise AttributeError
  end.

Definition set_icmpv4_cksum (p : Icmp4Packet) (c : Z) : Icmp4Packet :=
  mkIcmp4Packet (tracker p) (icmpv4_type p) (icmpv4_code p) c
    (icmpv4_ec_id p) (icmpv4_ec_seq p) (icmpv4_ec_raw_data p)
    (icmpv4_un_reserved p) (icmpv4_un_raw_data p) (unknown_message p).

(** [Icmp4Packet.__init__], parse path ([if parent_packet:]). *)
Definition init_parse (parent_packet : ParentPacket) : result Icmp4Packet :=
  let tracker := pp_tracker parent_packet in
  let raw_packet := pp_raw_data parent_packet in
  icmpv4_type <- index raw_packet 0 ;;
  icmpv4_code <- index raw_packet 1 ;;
  icmpv4_cksum <- unpack1 fH (slice 2 4 raw_packet) ;;
  if icmpv4_type =? ICMP4_ECHOREPLY then
    icmpv4_ec_id <- unpack1 fH (slice 4 6 raw_packet) ;;
    icmpv4_ec_seq <- unpack1 fH (slice 6 8 raw_packet) ;;
    Ok (mkIcmp4Packet tracker (PyInt icmpv4_type) icmpv4_code icmpv4_cksum
          (Some (PyInt icmpv4_ec_id)) (Some (PyInt icmpv4_ec_seq))
          (Some (skipn 8 raw_packet)) None None None)
  else if icmpv4_type =? ICMP4_UNREACHABLE then
    icmpv4_un_reserved <- unpack1 fL (slice 4 6 raw_packet) ;;
    Ok (mkIcmp4Packet tracker (PyInt icmpv4_type) icmpv4_code icmpv4_cksum
          None None None
          (Some icmpv4_un_reserved) (Some (skipn 8 raw_packet)) None)
  else if icmpv4_type =? ICMP4_ECHOREQUEST then
    icmpv4_ec_id <- unpack1 fH (slice 4 6 raw_packet) ;;
    icmpv4_ec_seq <- unpack1 fH (slice 6 8 raw_packet) ;;
    Ok (mkIcmp4Packet tracker (PyInt icmpv4_type) icmpv4_code icmpv4_cksum
          (Some (PyInt icmpv4_ec_id)) (Some (PyInt icmpv4_ec_seq))
          (Some (skipn 8 raw_packet)) None None None)
  else
    Ok (mkIcmp4Packet tracker (PyInt icmpv4_type) icmpv4_code icmpv4_cksum
          None None None None None (Some (skipn 4 raw_packet))).

(** [Icmp4Packet.__init__], build path. *)
Definition init_build (icmpv4_type : pyval) (icmpv4_code : Z)
    (icmpv4_ec_id icmpv4_ec_seq : pyval)
    (icmpv4_ec_raw_data icmpv4_un_raw_data : list byte)
    (echo_tracker : option Tracker) (serial_count : N) : Icmp4Packet * N :=
  let (tracker, serial_count') := Tracker_new "TX" echo_tracker serial_count in
  let self :=
    if py_eqb icmpv4_type ICMP4_ECHOREPLY && (icmpv4_code =? 0) then
      mkIcmp4Packet tracker icmpv4_type icmpv4_code 0
        (Some icmpv4_ec_id) (Some icmpv4_ec_seq) (Some icmpv4_ec_raw_data)
        None None None
    else if py_eqb icmpv4_type ICMP4_UNREACHABLE
            && (icmpv4_code =? ICMP4_UNREACHABLE_PORT) then
      mkIcmp4Packet tracker icmpv4_type icmpv4_code 0
        None None None
        (Some 0) (Some (firstn 520 icmpv4_un_raw_data)) None
    else if py_eqb icmpv4_type ICMP4_ECHOREQUEST && (icmpv4_code =? 0) then
      mkIcmp4Packet tracker icmpv4_type icmpv4_code 0
        (Some icmpv4_ec_id) (Some icmpv4_ec_seq) (Some icmpv4_ec_raw_data)
        None None None
    else
      mkIcmp4Packet tracker icmpv4_type icmpv4_code 0
        None None None None None None in
  (self, serial_count').

(** [Icmp4Packet(parent_packet, icmpv4_type, icmpv4_code, ...)].  A parent
    packet object is truthy; [None] selects the build path. *)
Definition init (parent_packet : option ParentPacket)
    (icmpv4_type : pyval) (icmpv4_code : Z)
    (icmpv4_ec_id icmpv4_ec_seq : pyval)
    (icmpv4_ec_raw_data icmpv4_un_raw_data : list byte)
    (echo_tracker : option Tracker) (serial_count : N)
    : result Icmp4Packet * N :=
  match parent_packet with
  | Some pp => (init_parse pp, serial_count)
  | None =>
      let (self, serial_count') :=
        init_build icmpv4_type icmpv4_code icmpv4_ec_id icmpv4_ec_seq
          icmpv4_ec_raw_data icmpv4_un_raw_data echo_tracker serial_count in
      (Ok self, serial_count')
  end.

(** The echo layout shared by the branches for types 0 and 8 of
    [raw_packet]: the arguments of [struct.pack] are read first, then the
    header is packed, then the data attribute is read. *)
Definition raw_echo (self : Icmp4Packet) : result (list byte) :=
  id <- getattr (icmpv4_ec_id self) ;;
  seq <- getattr (icmpv4_ec_seq self) ;;
  h <- struct_pack [fB; fB; fH; fH; fH]
         [icmpv4_type self; PyInt (icmpv4_code self);
          PyInt (icmpv4_cksum self); id; seq] ;;
  d <- getattr (icmpv4_ec_raw_data self) ;;
  Ok (h ++ d).

(** [Icmp4Packet.raw_packet] *)
Definition raw_packet (self : Icmp4Packet) : result (list byte) :=
  if py_eqb (icmpv4_type self) ICMP4_ECHOREPLY then
    raw_echo self
  else if py_eqb (icmpv4_type self) ICMP4_UNREACHABLE
          && (icmpv4_code self =? ICMP4_UNREACHABLE_PORT) then
    r <- getattr (icmpv4_un_reserved self) ;;
    h <- struct_pack [fB; fB; fH; fL]
           [icmpv4_type self; PyInt (icmpv4_code self);
            PyInt (icmpv4_cksum self); PyInt r] ;;
    d <- getattr (icmpv4_un_raw_data self) ;;
    Ok (h ++ d)
  else if py_eqb (icmpv4_type self) ICMP4_ECHOREQUEST then
    raw_echo self
  else
    h <- struct_pack [fB; fB; fH]
           [icmpv4_type self; PyInt (icmpv4_code self);
            PyInt (icmpv4_cksum self)] ;;
    m <- getattr (unknown_message self) ;;
    Ok (h ++ m).

(** The part [f", id {self.icmpv4_ec_id}, seq {self.icmpv4_ec_seq}"] that
    [__str__] appends for the types 0 and 8; both attributes are read. *)
Definition str_echo (self : Icmp4Packet) (log : string) : result string :=
  id <- getattr (icmpv4_ec_id self) ;;
  seq <- getattr (icmpv4_ec_seq self) ;;
  Ok (log ++ ", id " ++ py_format id ++ ", seq " ++ py_format seq)%string.

(** [Icmp4Packet.__str__]: the three [if] statements run one after the other;
    the one for port-unreachable does nothing. *)
Definition __str__ (self : Icmp4Packet) : result string :=
  let log :=
    ("ICMPv4 type " ++ py_format (icmpv4_type self)
       ++ ", code " ++ py_str_int (icmpv4_code self))%string in
  log <- (if py_eqb (icmpv4_type self) ICMP4_ECHOREPLY
          then str_echo self log else Ok log) ;;
  log <- (if py_eqb (icmpv4_type self) ICMP4_UNREACHABLE
             && (icmpv4_code self =? ICMP4_UNREACHABLE_PORT)
          then Ok log else Ok log) ;;
  log <- (if py_eqb (icmpv4_type self) ICMP4_ECHOREQUEST
          then str_echo self log else Ok log) ;;
  Ok log.

(** [Icmp4Packet.__len__] *)
Definition __len__ (self : Icmp4Packet) : result nat :=
  rp <- raw_packet self ;;
  Ok (List.length rp).

Section Cksum.

(** [inet_cksum.compute_cksum], from a module outside these sources: any
    function from byte strings to integers. *)
Variable inet_cksum_compute_cksum : list byte -> Z.

(** [Icmp4Packet.get_raw_packet]: stores the checksum in [self] and returns
    the bytes; the updated object is returned next to them. *)
Definition get_raw_packet (self : Icmp4Packet)
    : result (Icmp4Packet * list byte) :=
  rp <- raw_packet self ;;
  let self' := set_icmpv4_cksum self (inet_cksum_compute_cksum rp) in
  rp' <- raw_packet self' ;;
  Ok (self', rp').

(** [Icmp4Packet.validate_cksum] *)
Definition validate_cksum (self : Icmp4Packet) : result bool :=
  rp <- raw_packet self ;;
  Ok (negb (negb (inet_cksum_compute_cksum rp =? 0))).

End Cksum.

End ps_icmpv4.

(** ** Reference notions used to state the checksum properties *)

(** The 16-bit big-endian words of a byte string of even length. *)
Fixpoint words (bs : list byte) : list Z :=
  match bs with
  | a :: b :: rest => (byte_to_Z a * 256 + byte_to_Z b) :: words rest
  | _ => []
  end.

(** The zero byte that pads a payload of odd length. *)
Definition pad (payload : list byte) : list byte :=
  if Nat.even (List.length payload) then [] else [x00].

(** What the UDP checksum covers according to the specification: the
    pseudo-header, the UDP header with its checksum field zeroed, and the
    payload zero-padded to an even byte count. *)
Definition udp_cksum_coverage (ip_pseudo_header : list byte)
    (sport dport len : Z) (payload : list byte) : list byte :=
  ip_pseudo_header
    ++ be_encode 2 sport ++ be_encode 2 dport ++ be_encode 2 len ++ [x00; x00]
    ++ payload ++ pad payload.

(** The checksum of a byte string the way the specification words it: sum the
    16-bit halves, fold the carries back in once, take the one's-complement. *)
Definition cksum_of (bs : list byte) : Z :=
  ps_udp.fold_complement (sum (words bs)).

(** Addition of 16-bit one's-complement numbers, with end-around carry. *)
Definition onec_add (a b : Z) : Z :=
  let s := a + b in
  if s <? 65536 then s else s - 65535.

(** The 16-bit one's-complement sum of a list of words. *)
Definition one_complement_sum (ws : list Z) : Z := fold_left onec_add ws 0.

(** A one's-complement sum is zero when it is one of the two representations
    of zero. *)
Definition onec_zero (s : Z) : bool := (s =? 0) || (s =? 0xFFFF).

(** The wire fields of an ICMPv4 packet, that is all attributes but the
    tracker and the checksum. *)
Definition icmp4_fields (p : ps_icmpv4.Icmp4Packet) :=
  (ps_icmpv4.icmpv4_type p, ps_icmpv4.icmpv4_code p,
   ps_icmpv4.icmpv4_ec_id p, ps_icmpv4.icmpv4_ec_seq p,
   ps_icmpv4.icmpv4_ec_raw_data p,
   ps_icmpv4.icmpv4_un_reserved p, ps_icmpv4.icmpv4_un_raw_data p,
   ps_icmpv4.unknown_message p).

(** The wire fields of a UDP packet, that is all attributes but the tracker,
    the pseudo-header of the enclosing packet and the checksum. *)
Definition udp_fields (p : ps_udp.UdpPacket) :=
  (ps_udp.udp_sport p, ps_udp.udp_dport p, ps_udp.udp_len p, ps_udp.raw_data p).

(** ** Sample values *)

Definition bytes_of (l : list Z) : list byte := map byte_of_Z l.

Definition rx_tracker : Tracker := mkTracker "RX" 7%N None.

(** Pseudo-header of a datagram from 192.168.9.7 to 192.168.9.1, protocol 17,
    UDP length 8. *)
Definition sample_pseudo_header : list byte :=
  bytes_of [192; 168; 9; 7; 192; 168; 9; 1; 0; 17; 0; 8].

(** An inbound ICMPv4 port-unreachable message with no quoted data. *)
Definition sample_unreachable : ParentPacket :=
  mkParentPacket rx_tracker (bytes_of [3; 3; 0; 0; 0; 0; 0; 0]) [].

(** An inbound UDP datagram "hi" from port 7 to port 9 whose length field
    is 10, followed by three bytes of link-layer padding. *)
Definition sample_udp_padded : ParentPacket :=
  mkParentPacket rx_tracker
    (bytes_of [0; 7; 0; 9; 0; 10; 0; 0; 104; 105; 0; 0; 0]) [].

(** The packet built from the ports [sport] and [dport] and an empty
    payload, as the first packet built by the stack. *)
Definition sample_datagram (sport dport : Z) : result ps_udp.UdpPacket :=
  fst (ps_udp.init None (PyInt sport) (PyInt dport) (Some []) None 0%N).

(** Serializing a packet for [sample_pseudo_header] and reading back the
    checksum field of what goes on the wire. *)
Definition sent_cksum_field (p : result ps_udp.UdpPacket) : result Z :=
  p <- p ;;
  r <- ps_udp.get_raw_packet p sample_pseudo_header ;;
  unpack1 fH (slice 6 8 (snd r)).

(** The 16-bit words a receiver sums to verify a packet serialized for
    [sample_pseudo_header]: pseudo-header plus serialized packet, zero-padded
    to an even length. *)
Definition sent_words (p : result ps_udp.UdpPacket) : result (list Z) :=
  p <- p ;;
  r <- ps_udp.get_raw_packet p sample_pseudo_header ;;
  Ok (words (sample_pseudo_header ++ snd r ++ pad (snd r))).

(** An inbound echo request, id 0x1234, sequence number 1, data "hi". *)
Definition sample_echo_request : ParentPacket :=
  mkParentPacket rx_tracker
    (bytes_of [8; 0; 0; 0; 18; 52; 0; 1; 104; 105]) [].


(** ** Bytes and the [struct] codec *)

Lemma byte_to_Z_range (b : byte) : 0 <= byte_to_Z b < 256.
Proof.
  unfold byte_to_Z.
  pose proof (Byte.to_N_bounded b).
  lia.
Qed.

Lemma byte_of_to_Z (b : byte) : byte_of_Z (byte_to_Z b) = b.
Proof.
  unfold byte_of_Z, byte_to_Z.
  now rewrite N2Z.id, Byte.of_to_N.
Qed.

Lemma byte_to_of_Z (z : Z) : 0 <= z < 256 -> byte_to_Z (byte_of_Z z) = z.
Proof.
  intros Hz.
  unfold byte_of_Z, byte_to_Z.
  destruct (Byte.of_N (Z.to_N z)) as [b|] eqn:E.
  - apply Byte.to_of_N in E. rewrite E. lia.
  - apply Byte.of_N_None_iff in E. lia.
Qed.

Lemma be_encode_1 (z : Z) : be_encode 1 z = [byte_of_Z (z mod 256)].
Proof.
  unfold be_encode.
  change (256 ^ Z.of_nat 0) with 1.
  now rewrite Z.div_1_r.
Qed.

Lemma be_encode_2 (z : Z) :
  be_encode 2 z = [byte_of_Z (z / 256 mod 256); byte_of_Z (z mod 256)].
Proof.
  unfold be_encode.
  change (256 ^ Z.of_nat 1) with 256.
  change (256 ^ Z.of_nat 0) with 1.
  now rewrite Z.div_1_r.
Qed.

Lemma be_encode_word (a b : byte) :
  be_encode 2 (byte_to_Z a * 256 + byte_to_Z b) = [a; b].
Proof.
  pose proof (byte_to_Z_range a) as Ha.
  pose proof (byte_to_Z_range b) as Hb.
  rewrite be_encode_2.
  rewrite Z.div_add_l, (Z.div_small (byte_to_Z b)) by lia.
  rewrite Z.add_0_r, Z.mod_small by lia.
  rewrite Z.add_comm, Z.mod_add, Z.mod_small by lia.
  now rewrite !byte_of_to_Z.
Qed.

Lemma word_range (a b : byte) : 0 <= byte_to_Z a * 256 + byte_to_Z b < 65536.
Proof.
  pose proof (byte_to_Z_range a).
  pose proof (byte_to_Z_range b).
  lia.
Qed.

Lemma pack_item_H (z : Z) :
  0 <= z < 65536 -> pack_item fH (PyInt z) = Ok (be_encode 2 z).
Proof.
  intros Hz.
  unfold pack_item.
  change (256 ^ Z.of_nat (size fH)) with 65536.
  replace (0 <=? z) with true by (symmetry; apply Z.leb_le; lia).
  replace (z <? 65536) with true by (symmetry; apply Z.ltb_lt; lia).
  reflexivity.
Qed.

Lemma pack_item_B (z : Z) :
  0 <= z < 256 -> pack_item fB (PyInt z) = Ok (be_encode 1 z).
Proof.
  intros Hz.
  unfold pack_item.
  change (256 ^ Z.of_nat (size fB)) with 256.
  replace (0 <=? z) with true by (symmetry; apply Z.leb_le; lia).
  replace (z <? 256) with true by (symmetry; apply Z.ltb_lt; lia).
  reflexivity.
Qed.

Lemma pack_item_word (a b : byte) :
  pack_item fH (PyInt (byte_to_Z a * 256 + byte_to_Z b)) = Ok [a; b].
Proof.
  rewrite pack_item_H by apply word_range.
  now rewrite be_encode_word.
Qed.

Lemma pack_item_byte (a : byte) : pack_item fB (PyInt (byte_to_Z a)) = Ok [a].
Proof.
  pose proof (byte_to_Z_range a).
  rewrite pack_item_B, be_encode_1 by lia.
  now rewrite Z.mod_small, byte_of_to_Z by lia.
Qed.

Lemma pack_item_H_length (v : pyval) (bs : list byte) :
  pack_item fH v = Ok bs -> exists a b, bs = [a; b].
Proof.
  destruct v as [|z]; unfold pack_item; [discriminate|].
  destruct ((0 <=? z) && (z <? _)); [|discriminate].
  intros [= <-]. eauto.
Qed.

Lemma word_decode (a b : byte) :
  be_decode 0 [a; b] = byte_to_Z a * 256 + byte_to_Z b.
Proof. reflexivity. Qed.

Lemma be_decode_encode_2 (z : Z) :
  0 <= z < 65536 -> be_decode 0 (be_encode 2 z) = z.
Proof.
  intros Hz.
  rewrite be_encode_2, word_decode.
  rewrite !byte_to_of_Z by (apply Z.mod_pos_bound; lia).
  rewrite (Z.mod_small (z / 256)).
  - pose proof (Z.div_mod z 256). lia.
  - split; [apply Z.div_pos; lia | apply Z.div_lt_upper_bound; lia].
Qed.

Lemma list_ge_4 {A : Type} (l : list A) :
  (4 <= List.length l)%nat ->
  exists b0 b1 b2 b3 rest, l = b0 :: b1 :: b2 :: b3 :: rest.
Proof.
  intros H.
  do 4 (destruct l as [|? l]; [simpl in H; lia|]).
  eauto 10.
Qed.

Lemma list_ge_8 {A : Type} (l : list A) :
  (8 <= List.length l)%nat ->
  exists b0 b1 b2 b3 b4 b5 b6 b7 rest,
    l = b0 :: b1 :: b2 :: b3 :: b4 :: b5 :: b6 :: b7 :: rest.
Proof.
  intros H.
  do 8 (destruct l as [|? l]; [simpl in H; lia|]).
  eauto 20.
Qed.

Lemma list_eq_12 {A : Type} (l : list A) :
  List.length l = 12%nat ->
  exists b0 b1 b2 b3 b4 b5 b6 b7 b8 b9 b10 b11,
    l = [b0; b1; b2; b3; b4; b5; b6; b7; b8; b9; b10; b11].
Proof.
  intros H.
  do 12 (destruct l as [|? l]; [simpl in H; lia|]).
  destruct l; [|simpl in H; lia].
  eauto 20.
Qed.

(** ** UDP: parsing *)

(** The parse path on a buffer that holds a whole header: every field is the
    big-endian word at its offset and the payload is [raw_packet[8:udp_len]]. *)
Lemma udp_init_parse_header (t : Tracker) (ph rest : list byte)
    (b0 b1 b2 b3 b4 b5 b6 b7 : byte) :
  let raw := b0 :: b1 :: b2 :: b3 :: b4 :: b5 :: b6 :: b7 :: rest in
  let len := byte_to_Z b4 * 256 + byte_to_Z b5 in
  ps_udp.init_parse (mkParentPacket t raw ph)
  = Ok (ps_udp.mkUdpPacket t (slice 8 (Z.to_nat len) raw) (Some ph)
          (PyInt (byte_to_Z b0 * 256 + byte_to_Z b1))
          (PyInt (byte_to_Z b2 * 256 + byte_to_Z b3))
          len
          (byte_to_Z b6 * 256 + byte_to_Z b7)).
Proof. reflexivity. Qed.

(** C10: parsing a UDP packet from a buffer of at least 8 bytes never raises;
    the length field is the word at offset 4, the payload is exactly the
    buffer bytes at the positions in [8, length field), so bytes past the
    length field are left out and a length field past the end of the buffer
    is clamped to the bytes that are there. *)
Theorem C10_udp_parse_never_raises (pp : ParentPacket) :
  (8 <= List.length (pp_raw_data pp))%nat ->
  exists p,
    ps_udp.init_parse pp = Ok p
    /\ (forall s d rd e n, ps_udp.init (Some pp) s d rd e n = (Ok p, n))
    /\ ps_udp.udp_len p = be_decode 0 (slice 4 6 (pp_raw_data pp))
    /\ 0 <= ps_udp.udp_len p < 65536
    /\ ps_udp.raw_data p
       = firstn (Z.to_nat (ps_udp.udp_len p) - 8) (skipn 8 (pp_raw_data pp))
    /\ (forall i,
          nth_error (ps_udp.raw_data p) i
          = if (8 + i <? Z.to_nat (ps_udp.udp_len p))%nat
            then nth_error (pp_raw_data pp) (8 + i)
            else None)
    /\ List.length (ps_udp.raw_data p)
       = (Nat.min (Z.to_nat (ps_udp.udp_len p)) (List.length (pp_raw_data pp)) - 8)%nat.
Proof.
  destruct pp as [t raw ph]; cbn [pp_raw_data].
  intros Hlen.
  destruct (list_ge_8 raw Hlen)
    as (b0 & b1 & b2 & b3 & b4 & b5 & b6 & b7 & rest & ->).
  eexists. split; [apply udp_init_parse_header|].
  cbn [ps_udp.udp_len ps_udp.raw_data].
  split; [intros; unfold ps_udp.init; now rewrite udp_init_parse_header|].
  split; [reflexivity|].
  split; [apply word_range|].
  split; [reflexivity|].
  split.
  - intros i. unfold slice.
    rewrite nth_error_firstn, nth_error_skipn.
    destruct (i <? _)%nat eqn:E1; destruct (8 + i <? _)%nat eqn:E2;
      try reflexivity.
    + apply Nat.ltb_lt in E1. apply Nat.ltb_ge in E2. lia.
    + apply Nat.ltb_ge in E1. apply Nat.ltb_lt in E2. lia.
  - unfold slice. rewrite length_firstn, length_skipn. lia.
Qed.

Lemma C10_udp_parse_never_raises_witness :
  (8 <= List.length (pp_raw_data sample_udp_padded))%nat
  /\ exists p,
       ps_udp.init_parse sample_udp_padded = Ok p
       /\ ps_udp.raw_data p = bytes_of [104; 105].
Proof.
  assert (H : (8 <= List.length (pp_raw_data sample_udp_padded))%nat)
    by (simpl; lia).
  split; [exact H|].
  destruct (C10_udp_parse_never_raises sample_udp_padded H)
    as (p & Hp & _ & _ & _ & Hd & _).
  exists p. split; [exact Hp|].
  rewrite Hd. inversion Hp. reflexivity.
Defined.

(** ** ICMPv4: parsing *)

(** A message of type 3 never parses: the reserved field is unpacked with the
    4-byte format ["!L"] from the slice [raw_packet[4:6]], which holds at most
    2 bytes. *)
Lemma icmp4_init_parse_unreachable_raises (t : Tracker) (ph rest : list byte)
    (b1 b2 b3 : byte) :
  ps_icmpv4.init_parse (mkParentPacket t (x03 :: b1 :: b2 :: b3 :: rest) ph)
  = Raise StructError.
Proof.
  unfold ps_icmpv4.init_parse.
  cbn [pp_raw_data pp_tracker index nth_error bind].
  change (byte_to_Z x03) with 3.
  unfold slice; cbn [skipn firstn Nat.sub].
  unfold unpack1 at 1, struct_unpack; cbn [List.length calcsize size Nat.add Nat.eqb bind].
  cbn [Z.eqb ps_icmpv4.ICMP4_ECHOREPLY ps_icmpv4.ICMP4_UNREACHABLE Pos.eqb].
  unfold unpack1, struct_unpack.
  destruct rest as [|b4 [|b5 rest']]; reflexivity.
Qed.

(** C1: the inbound destination-unreachable message [03 03 00 00 00 00 00 00]
    is 8 bytes long and of type 3, and parsing it raises [struct.error]: no
    reserved field and no quoted data are extracted. *)
Theorem C1_unreachable_parse_raises :
  List.length (pp_raw_data sample_unreachable) = 8%nat
  /\ index (pp_raw_data sample_unreachable) 0 = Ok ps_icmpv4.ICMP4_UNREACHABLE
  /\ ps_icmpv4.init_parse sample_unreachable = Raise StructError
  /\ fst (ps_icmpv4.init (Some sample_unreachable) PyNone 0 PyNone PyNone [] []
            None 0%N)
     = Raise StructError.
Proof. repeat split. Qed.

(** ** ICMPv4: building *)

Lemma firstn_prefix {A : Type} (n : nat) (l : list A) :
  exists rest, l = firstn n l ++ rest.
Proof. exists (skipn n l). symmetry. apply firstn_skipn. Qed.

(** C6: a destination-unreachable message built for emission (type 3,
    code 3) stores [icmpv4_un_raw_data[:520]]: at most 520 bytes, a prefix of
    the datagram supplied, and these are the bytes from offset 8 on of both
    serializations ([raw_packet], and [get_raw_packet] for a checksum routine
    with 16-bit results). *)
Theorem C6_unreachable_data_truncated (id seq : pyval) (ec_data data : list byte)
    (echo : option Tracker) (n : N) :
  let p := fst (ps_icmpv4.init_build (PyInt 3) 3 id seq ec_data data echo n) in
  let stored := firstn 520 data in
  ps_icmpv4.icmpv4_un_raw_data p = Some stored
  /\ (List.length stored <= 520)%nat
  /\ (exists rest, data = stored ++ rest)
  /\ ps_icmpv4.raw_packet p
     = Ok (bytes_of [3; 3; 0; 0; 0; 0; 0; 0] ++ stored)
  /\ (forall cks : list byte -> Z,
        (forall bs, 0 <= cks bs < 65536) ->
        exists p' hdr,
          ps_icmpv4.get_raw_packet cks p = Ok (p', hdr ++ stored)
          /\ List.length hdr = 8%nat
          /\ ps_icmpv4.icmpv4_un_raw_data p' = Some stored).
Proof.
  cbv zeta.
  split; [reflexivity|].
  split; [rewrite length_firstn; lia|].
  split; [apply firstn_prefix|].
  split; [reflexivity|].
  intros cks Hcks.
  unfold ps_icmpv4.get_raw_packet.
  change (ps_icmpv4.raw_packet
            (fst (ps_icmpv4.init_build (PyInt 3) 3 id seq ec_data data echo n)))
    with (@Ok (list byte) (bytes_of [3; 3; 0; 0; 0; 0; 0; 0] ++ firstn 520 data)).
  cbn [bind].
  set (c := cks _).
  assert (Hc : 0 <= c < 65536) by apply Hcks.
  unfold ps_icmpv4.raw_packet.
  cbn [ps_icmpv4.set_icmpv4_cksum ps_icmpv4.init_build Tracker_new fst
       ps_icmpv4.icmpv4_type ps_icmpv4.icmpv4_code ps_icmpv4.icmpv4_cksum
       ps_icmpv4.icmpv4_un_reserved ps_icmpv4.icmpv4_un_raw_data
       py_eqb andb Z.eqb Pos.eqb
       ps_icmpv4.ICMP4_ECHOREPLY ps_icmpv4.ICMP4_UNREACHABLE
       ps_icmpv4.ICMP4_UNREACHABLE_PORT ps_icmpv4.getattr bind].
  cbn [struct_pack bind].
  rewrite (pack_item_H c Hc).
  cbn [pack_item size bind Z.leb Z.ltb Z.compare andb Z.of_nat Pos.of_succ_nat
       Pos.succ Z.pow Z.pow_pos Pos.iter Z.mul Pos.mul Pos.add Pos.compare
       Pos.compare_cont].
  cbn [bind app].
  eexists. eexists. split; [reflexivity|].
  split; [rewrite be_encode_2; reflexivity|reflexivity].
Qed.

Lemma C6_unreachable_data_truncated_witness :
  (forall bs : list byte, 0 <= (fun _ : list byte => 0) bs < 65536)
  /\ exists p' hdr,
       ps_icmpv4.get_raw_packet (fun _ => 0)
         (fst (ps_icmpv4.init_build (PyInt 3) 3 PyNone PyNone []
                 (repeat x2a 600) None 0%N))
       = Ok (p', hdr ++ firstn 520 (repeat x2a 600))
       /\ List.length hdr = 8%nat
       /\ ps_icmpv4.icmpv4_un_raw_data p' = Some (firstn 520 (repeat x2a 600)).
Proof.
  assert (H : forall bs : list byte, 0 <= (fun _ : list byte => 0) bs < 65536)
    by (intros _; simpl; lia).
  split; [exact H|].
  exact (proj2 (proj2 (proj2 (proj2
           (C6_unreachable_data_truncated PyNone PyNone [] (repeat x2a 600)
              None 0%N))))
           (fun _ => 0) H).
Defined.

(** What the build path leaves behind for a (type, code) combination that
    none of its three branches handles: a packet with no body attribute. *)
Lemma icmp4_init_build_unknown (ty : pyval) (code : Z) (id seq : pyval)
    (d1 d2 : list byte) (echo : option Tracker) (n : N) :
  ~ (ty = PyInt 0 /\ code = 0) ->
  ~ (ty = PyInt 3 /\ code = 3) ->
  ~ (ty = PyInt 8 /\ code = 0) ->
  fst (ps_icmpv4.init_build ty code id seq d1 d2 echo n)
  = ps_icmpv4.mkIcmp4Packet (mkTracker "TX" n echo) ty code 0
      None None None None None None.
Proof.
  intros H0 H3 H8.
  unfold ps_icmpv4.init_build, Tracker_new,
    ps_icmpv4.ICMP4_ECHOREPLY, ps_icmpv4.ICMP4_UNREACHABLE,
    ps_icmpv4.ICMP4_UNREACHABLE_PORT, ps_icmpv4.ICMP4_ECHOREQUEST.
  cbn [fst].
  destruct ty as [|z]; [reflexivity|]. cbn [py_eqb].
  destruct (z =? 0) eqn:Ez0; destruct (code =? 0) eqn:Ec0; cbn [andb].
  1: { apply Z.eqb_eq in Ez0, Ec0. subst. exfalso. now apply H0. }
  all: destruct (z =? 3) eqn:Ez3; destruct (code =? 3) eqn:Ec3; cbn [andb].
  all: try (apply Z.eqb_eq in Ez3, Ec3; subst; exfalso; now apply H3).
  all: destruct (z =? 8) eqn:Ez8; cbn [andb]; try reflexivity.
  all: apply Z.eqb_eq in Ez8, Ec0; subst; exfalso; now apply H8.
Qed.

Lemma pack_item_raises (f : fmt) (v : pyval) (e : exn) :
  pack_item f v = Raise e -> e = StructError.
Proof.
  unfold pack_item.
  destruct v as [|z]; [congruence|].
  destruct (_ && _); congruence.
Qed.

Lemma struct_pack_raises (fs : list fmt) (vs : list pyval) (e : exn) :
  struct_pack fs vs = Raise e -> e = StructError.
Proof.
  revert vs.
  induction fs as [|f fs IH]; intros [|v vs]; cbn [struct_pack];
    try congruence.
  destruct (pack_item f v) as [b|e1] eqn:E1; cbn [bind].
  - destruct (struct_pack fs vs) as [bs|e2] eqn:E2; cbn [bind].
    + discriminate.
    + intros [= <-]. now apply (IH vs).
  - intros [= <-]. now apply pack_item_raises in E1.
Qed.

(** Serializing a packet that has no body attribute raises, whatever its
    type, code and checksum. *)
Lemma icmp4_raw_packet_no_body (t : Tracker) (ty : pyval) (code ck : Z) :
  exists e,
    ps_icmpv4.raw_packet
      (ps_icmpv4.mkIcmp4Packet t ty code ck None None None None None None)
    = Raise e
    /\ (e = AttributeError \/ e = StructError).
Proof.
  unfold ps_icmpv4.raw_packet, ps_icmpv4.raw_echo.
  cbn [ps_icmpv4.icmpv4_type ps_icmpv4.icmpv4_code ps_icmpv4.icmpv4_cksum
       ps_icmpv4.icmpv4_ec_id ps_icmpv4.icmpv4_ec_seq
       ps_icmpv4.icmpv4_ec_raw_data ps_icmpv4.icmpv4_un_reserved
       ps_icmpv4.icmpv4_un_raw_data ps_icmpv4.unknown_message
       ps_icmpv4.getattr bind].
  destruct (py_eqb ty ps_icmpv4.ICMP4_ECHOREPLY); [eauto|].
  destruct (py_eqb ty ps_icmpv4.ICMP4_UNREACHABLE && _); [eauto|].
  destruct (py_eqb ty ps_icmpv4.ICMP4_ECHOREQUEST); [eauto|].
  destruct (struct_pack _ _) as [h|e] eqn:E; cbn [bind].
  - eauto.
  - apply struct_pack_raises in E. eauto.
Qed.

(** C9: an ICMPv4 packet built with a (type, code) combination other than
    (0,0), (3,3) and (8,0) has none of the message body attributes, not even
    [unknown_message], and both [raw_packet] and [get_raw_packet] raise on
    it ([AttributeError], or [struct.error] when the header does not pack). *)
Theorem C9_unknown_build_cannot_be_emitted (ty : pyval) (code : Z)
    (id seq : pyval) (d1 d2 : list byte) (echo : option Tracker) (n : N)
    (cks : list byte -> Z) :
  ~ (ty = PyInt 0 /\ code = 0) ->
  ~ (ty = PyInt 3 /\ code = 3) ->
  ~ (ty = PyInt 8 /\ code = 0) ->
  let p := fst (ps_icmpv4.init_build ty code id seq d1 d2 echo n) in
  (ps_icmpv4.icmpv4_ec_id p = None
   /\ ps_icmpv4.icmpv4_ec_seq p = None
   /\ ps_icmpv4.icmpv4_ec_raw_data p = None
   /\ ps_icmpv4.icmpv4_un_reserved p = None
   /\ ps_icmpv4.icmpv4_un_raw_data p = None
   /\ ps_icmpv4.unknown_message p = None)
  /\ exists e,
       (e = AttributeError \/ e = StructError)
       /\ ps_icmpv4.raw_packet p = Raise e
       /\ ps_icmpv4.get_raw_packet cks p = Raise e.
Proof.
  intros H0 H3 H8. cbv zeta.
  rewrite (icmp4_init_build_unknown ty code id seq d1 d2 echo n H0 H3 H8).
  split; [repeat split|].
  destruct (icmp4_raw_packet_no_body (mkTracker "TX" n echo) ty code 0)
    as (e & He & Hk).
  exists e. split; [exact Hk|]. split; [exact He|].
  unfold ps_icmpv4.get_raw_packet. now rewrite He.
Qed.

Lemma C9_unknown_build_cannot_be_emitted_witness :
  (~ (PyInt 3 = PyInt 0 /\ 1 = 0)
   /\ ~ (PyInt 3 = PyInt 3 /\ 1 = 3)
   /\ ~ (PyInt 3 = PyInt 8 /\ 1 = 0))
  /\ exists e,
       (e = AttributeError \/ e = StructError)
       /\ ps_icmpv4.raw_packet
            (fst (ps_icmpv4.init_build (PyInt 3) 1 PyNone PyNone [] [] None 0%N))
          = Raise e
       /\ ps_icmpv4.get_raw_packet (fun _ => 0)
            (fst (ps_icmpv4.init_build (PyInt 3) 1 PyNone PyNone [] [] None 0%N))
          = Raise e.
Proof.
  assert (H0 : ~ (PyInt 3 = PyInt 0 /\ 1 = 0)) by (intros [_ H]; lia).
  assert (H3 : ~ (PyInt 3 = PyInt 3 /\ 1 = 3)) by (intros [_ H]; lia).
  assert (H8 : ~ (PyInt 3 = PyInt 8 /\ 1 = 0)) by (intros [_ H]; lia).
  split; [auto|].
  exact (proj2 (C9_unknown_build_cannot_be_emitted (PyInt 3) 1 PyNone PyNone
                  [] [] None 0%N (fun _ => 0) H0 H3 H8)).
Defined.

(** ** Trackers *)

Lemma icmp4_init_parse_tracker (pp : ParentPacket) (p : ps_icmpv4.Icmp4Packet) :
  ps_icmpv4.init_parse pp = Ok p -> ps_icmpv4.tracker p = pp_tracker pp.
Proof.
  unfold ps_icmpv4.init_parse, bind.
  repeat match goal with
         | |- context [match ?x with _ => _ end] => destruct x
         end;
    intros H; inversion H; reflexivity.
Qed.

Lemma udp_init_parse_tracker (pp : ParentPacket) (p : ps_udp.UdpPacket) :
  ps_udp.init_parse pp = Ok p -> ps_udp.tracker p = pp_tracker pp.
Proof.
  unfold ps_udp.init_parse, bind.
  repeat match goal with
         | |- context [match ?x with _ => _ end] => destruct x
         end;
    intros H; inversion H; reflexivity.
Qed.

(** C8: on the build path both constructors attach a new tracker made by
    [Tracker("TX", echo_tracker)]: its direction is "TX", its back-link is
    the echo tracker supplied and its id is the next one of the counter, so
    it differs from every tracker handed out before; on the parse path the
    tracker of the packet is the tracker of the parent packet and no tracker
    is created. *)
Theorem C8_tracker_build_and_parse (echo : option Tracker) (n : N) :
  let fresh := mkTracker "TX" n echo in
  (tr_prefix fresh = "TX"%string
   /\ tr_echo_tracker fresh = echo
   /\ forall t, (tr_serial t < n)%N -> fresh <> t)
  /\ (forall ty code id seq d1 d2,
        exists p,
          ps_icmpv4.init None ty code id seq d1 d2 echo n = (Ok p, (n + 1)%N)
          /\ ps_icmpv4.tracker p = fresh)
  /\ (forall sport dport data,
        exists p,
          ps_udp.init None sport dport (Some data) echo n = (Ok p, (n + 1)%N)
          /\ ps_udp.tracker p = fresh)
  /\ (forall pp ty code id seq d1 d2 p,
        fst (ps_icmpv4.init (Some pp) ty code id seq d1 d2 echo n) = Ok p ->
        ps_icmpv4.tracker p = pp_tracker pp
        /\ snd (ps_icmpv4.init (Some pp) ty code id seq d1 d2 echo n) = n)
  /\ (forall pp sport dport data p,
        fst (ps_udp.init (Some pp) sport dport data echo n) = Ok p ->
        ps_udp.tracker p = pp_tracker pp
        /\ snd (ps_udp.init (Some pp) sport dport data echo n) = n).
Proof.
  cbv zeta. repeat apply conj.
  - reflexivity.
  - reflexivity.
  - intros t Ht E. subst t. cbn [tr_serial] in Ht. lia.
  - intros ty code id seq d1 d2.
    unfold ps_icmpv4.init, ps_icmpv4.init_build, Tracker_new.
    eexists. split; [reflexivity|].
    repeat match goal with
           | |- context [if ?b then _ else _] => destruct b
           end;
      reflexivity.
  - intros sport dport data. eexists. split; reflexivity.
  - intros pp ty code id seq d1 d2 p. cbn [ps_icmpv4.init fst snd].
    intros H. split; [now apply icmp4_init_parse_tracker|reflexivity].
  - intros pp sport dport data p. cbn [ps_udp.init fst snd].
    intros H. split; [now apply udp_init_parse_tracker|reflexivity].
Qed.

Lemma C8_tracker_build_and_parse_witness :
  fst (ps_udp.init (Some sample_udp_padded) PyNone PyNone None None 8%N)
  = Ok (ps_udp.mkUdpPacket rx_tracker (bytes_of [104; 105]) (Some [])
          (PyInt 7) (PyInt 9) 10 0)
  /\ ps_udp.tracker
       (ps_udp.mkUdpPacket rx_tracker (bytes_of [104; 105]) (Some [])
          (PyInt 7) (PyInt 9) 10 0)
     = pp_tracker sample_udp_padded
  /\ snd (ps_udp.init (Some sample_udp_padded) PyNone PyNone None None 8%N)
     = 8%N.
Proof.
  assert (H : fst (ps_udp.init (Some sample_udp_padded) PyNone PyNone None
                     None 8%N)
              = Ok (ps_udp.mkUdpPacket rx_tracker (bytes_of [104; 105])
                      (Some []) (PyInt 7) (PyInt 9) 10 0))
    by reflexivity.
  split; [exact H|].
  exact (proj2 (proj2 (proj2 (proj2 (C8_tracker_build_and_parse None 8%N))))
           sample_udp_padded PyNone PyNone None _ H).
Defined.

(** ** UDP: serialization and checksum *)

Lemma udp_raw_packet_eq (p : ps_udp.UdpPacket) (hs hd hl hc : list byte) :
  pack_item fH (ps_udp.udp_sport p) = Ok hs ->
  pack_item fH (ps_udp.udp_dport p) = Ok hd ->
  pack_item fH (PyInt (ps_udp.udp_len p)) = Ok hl ->
  pack_item fH (PyInt (ps_udp.udp_cksum p)) = Ok hc ->
  ps_udp.raw_packet p = Ok (hs ++ hd ++ hl ++ hc ++ ps_udp.raw_data p).
Proof.
  intros Hs Hd Hl Hc.
  unfold ps_udp.raw_packet, ps_udp.raw_header.
  cbn [struct_pack].
  rewrite Hs, Hd, Hl, Hc. cbn [bind].
  now rewrite app_nil_r, <- !app_assoc.
Qed.

Lemma unpack_items_words (n : nat) (bs : list byte) :
  List.length bs = (2 * n)%nat -> unpack_items (repeat fH n) bs = words bs.
Proof.
  revert bs.
  induction n as [|n IH]; intros bs Hlen.
  - destruct bs; [reflexivity|discriminate].
  - destruct bs as [|a [|b rest]]; try (simpl in Hlen; lia).
    cbn [repeat unpack_items size firstn skipn words].
    rewrite word_decode. f_equal.
    apply IH. simpl in Hlen. lia.
Qed.

Lemma calcsize_repeat_H (n : nat) : calcsize (repeat fH n) = (2 * n)%nat.
Proof.
  induction n as [|n IH]; [reflexivity|].
  cbn [repeat calcsize size]. rewrite IH. lia.
Qed.

(** [struct.unpack(f"! {len(bs) >> 1}H", bs)] on a buffer of even length. *)
Lemma struct_unpack_words (bs : list byte) :
  Nat.even (List.length bs) = true ->
  struct_unpack (repeat fH (Nat.shiftr (List.length bs) 1)) bs = Ok (words bs).
Proof.
  intros Heven.
  apply Nat.even_spec in Heven. destruct Heven as [k Hk].
  assert (Hshift : Nat.shiftr (List.length bs) 1 = k).
  { rewrite <- Nat.div2_spec, Hk. apply Nat.div2_double. }
  unfold struct_unpack.
  rewrite Hshift, calcsize_repeat_H, Hk, Nat.eqb_refl.
  now rewrite unpack_items_words.
Qed.

(** [len(rp) & 1] tests the parity of the length. *)
Lemma land_1_parity (n : nat) :
  (Z.land (Z.of_nat n) 1 =? 0) = Nat.even n.
Proof.
  change 1 with (Z.ones 1) at 1.
  rewrite Z.land_ones by lia.
  change (2 ^ 1) with 2.
  destruct (Nat.even n) eqn:E.
  - apply Nat.even_spec in E. destruct E as [k ->].
    apply Z.eqb_eq. rewrite Nat2Z.inj_mul, Z.mul_comm. apply Z.mod_mul. lia.
  - assert (Ho : Nat.odd n = true) by (unfold Nat.odd; now rewrite E).
    apply Nat.odd_spec in Ho. destruct Ho as [k ->].
    apply Z.eqb_neq.
    rewrite Nat2Z.inj_add, Nat2Z.inj_mul, Z.mul_comm, Z.add_comm, Z.mod_add by lia.
    discriminate.
Qed.

Lemma even_length_padded (payload : list byte) :
  Nat.even (List.length (payload ++ pad payload)) = true.
Proof.
  unfold pad.
  destruct (Nat.even (List.length payload)) eqn:E.
  - now rewrite app_nil_r.
  - rewrite length_app. cbn [List.length].
    rewrite Nat.add_1_r, Nat.even_succ. unfold Nat.odd. now rewrite E.
Qed.

Lemma land_FFFF (x : Z) : Z.land x 0xFFFF = x mod 65536.
Proof.
  change 0xFFFF with (Z.ones 16).
  now rewrite Z.land_ones by lia.
Qed.

Lemma fold_complement_range (s : Z) : 0 <= ps_udp.fold_complement s < 65536.
Proof.
  unfold ps_udp.fold_complement.
  rewrite (land_FFFF (Z.lnot _)).
  apply Z.mod_pos_bound. lia.
Qed.

(** With a 12-byte pseudo-header, word [6 + 3] of the checksum buffer is the
    checksum field of the UDP header: [compute_cksum] returns the checksum of
    pseudo-header, header with zeroed checksum field and padded payload. *)
Lemma udp_compute_cksum_covered (p : ps_udp.UdpPacket) (ph hs hd hl hc : list byte) :
  List.length ph = 12%nat ->
  pack_item fH (ps_udp.udp_sport p) = Ok hs ->
  pack_item fH (ps_udp.udp_dport p) = Ok hd ->
  pack_item fH (PyInt (ps_udp.udp_len p)) = Ok hl ->
  pack_item fH (PyInt (ps_udp.udp_cksum p)) = Ok hc ->
  ps_udp.compute_cksum p ph
  = Ok (cksum_of (ph ++ hs ++ hd ++ hl ++ [x00; x00]
                    ++ ps_udp.raw_data p ++ pad (ps_udp.raw_data p))).
Proof.
  intros Hph Hs Hd Hl Hc.
  unfold ps_udp.compute_cksum.
  rewrite (udp_raw_packet_eq p hs hd hl hc Hs Hd Hl Hc). cbn [bind].
  rewrite land_1_parity.
  destruct (pack_item_H_length _ _ Hs) as (s1 & s0 & ->).
  destruct (pack_item_H_length _ _ Hd) as (d1 & d0 & ->).
  destruct (pack_item_H_length _ _ Hl) as (l1 & l0 & ->).
  destruct (pack_item_H_length _ _ Hc) as (c1 & c0 & ->).
  destruct (list_eq_12 ph Hph)
    as (b0 & b1 & b2 & b3 & b4 & b5 & b6 & b7 & b8 & b9 & b10 & b11 & ->).
  replace (Nat.even (List.length
             ([s1; s0] ++ [d1; d0] ++ [l1; l0] ++ [c1; c0] ++ ps_udp.raw_data p)))
    with (Nat.even (List.length (ps_udp.raw_data p))) by reflexivity.
  fold (pad (ps_udp.raw_data p)).
  cbn [app].
  rewrite struct_unpack_words
    by (cbn [List.length Nat.even]; apply even_length_padded).
  cbn [bind words].
  unfold list_set.
  cbn [List.length Nat.ltb Nat.leb Nat.add firstn skipn app bind].
  unfold cksum_of. cbn [words].
  reflexivity.
Qed.

Lemma udp_raw_packet_inv (p : ps_udp.UdpPacket) (rp : list byte) :
  ps_udp.raw_packet p = Ok rp ->
  exists hs hd hl hc,
    pack_item fH (ps_udp.udp_sport p) = Ok hs
    /\ pack_item fH (ps_udp.udp_dport p) = Ok hd
    /\ pack_item fH (PyInt (ps_udp.udp_len p)) = Ok hl
    /\ pack_item fH (PyInt (ps_udp.udp_cksum p)) = Ok hc
    /\ rp = hs ++ hd ++ hl ++ hc ++ ps_udp.raw_data p.
Proof.
  unfold ps_udp.raw_packet, ps_udp.raw_header.
  cbn [struct_pack].
  destruct (pack_item fH (ps_udp.udp_sport p)) as [hs|]; [|discriminate].
  destruct (pack_item fH (ps_udp.udp_dport p)) as [hd|]; [|discriminate].
  destruct (pack_item fH (PyInt (ps_udp.udp_len p))) as [hl|]; [|discriminate].
  destruct (pack_item fH (PyInt (ps_udp.udp_cksum p))) as [hc|]; [|discriminate].
  cbn [bind]. intros [= <-].
  exists hs, hd, hl, hc.
  rewrite app_nil_r, <- !app_assoc. auto.
Qed.

(** [get_raw_packet] with a 12-byte pseudo-header on a packet whose fields
    pack: the checksum stored and sent is the one of
    [udp_compute_cksum_covered]. *)
Lemma udp_get_raw_packet_covered (p : ps_udp.UdpPacket)
    (ph hs hd hl hc : list byte) :
  List.length ph = 12%nat ->
  pack_item fH (ps_udp.udp_sport p) = Ok hs ->
  pack_item fH (ps_udp.udp_dport p) = Ok hd ->
  pack_item fH (PyInt (ps_udp.udp_len p)) = Ok hl ->
  pack_item fH (PyInt (ps_udp.udp_cksum p)) = Ok hc ->
  let c := cksum_of (ph ++ hs ++ hd ++ hl ++ [x00; x00]
                       ++ ps_udp.raw_data p ++ pad (ps_udp.raw_data p)) in
  ps_udp.get_raw_packet p ph
  = Ok (ps_udp.set_udp_cksum p c,
        hs ++ hd ++ hl ++ be_encode 2 c ++ ps_udp.raw_data p).
Proof.
  intros Hph Hs Hd Hl Hc c.
  unfold ps_udp.get_raw_packet.
  rewrite (udp_compute_cksum_covered p ph hs hd hl hc Hph Hs Hd Hl Hc).
  cbn [bind]. fold c.
  rewrite (udp_raw_packet_eq (ps_udp.set_udp_cksum p c) hs hd hl (be_encode 2 c));
    try assumption.
  - reflexivity.
  - apply pack_item_H. apply fold_complement_range.
Qed.

(** A packet built from 16-bit ports and a payload that fits the 16-bit
    length field. *)
Lemma udp_init_build_eq (sport dport : Z) (data : list byte)
    (echo : option Tracker) (n : N) :
  ps_udp.init None (PyInt sport) (PyInt dport) (Some data) echo n
  = (Ok (ps_udp.mkUdpPacket (mkTracker "TX" n echo) data None
           (PyInt sport) (PyInt dport) (8 + Z.of_nat (List.length data)) 0),
     (n + 1)%N).
Proof.
  unfold ps_udp.init, ps_udp.init_build, Tracker_new, ps_udp.UDP_HEADER_LEN.
  now rewrite Nat2Z.inj_add.
Qed.

Lemma udp_built_get_raw_packet (sport dport : Z) (data ph : list byte)
    (t : Tracker) (ck : Z) :
  0 <= sport < 65536 ->
  0 <= dport < 65536 ->
  Z.of_nat (List.length data) <= 65527 ->
  0 <= ck < 65536 ->
  List.length ph = 12%nat ->
  let len := 8 + Z.of_nat (List.length data) in
  let c := cksum_of (udp_cksum_coverage ph sport dport len data) in
  ps_udp.get_raw_packet
    (ps_udp.mkUdpPacket t data None (PyInt sport) (PyInt dport) len ck) ph
  = Ok (ps_udp.mkUdpPacket t data None (PyInt sport) (PyInt dport) len c,
        be_encode 2 sport ++ be_encode 2 dport ++ be_encode 2 len
          ++ be_encode 2 c ++ data).
Proof.
  intros Hs Hd Hlen Hck Hph len c.
  apply (udp_get_raw_packet_covered
           (ps_udp.mkUdpPacket t data None (PyInt sport) (PyInt dport) len ck)
           ph (be_encode 2 sport) (be_encode 2 dport) (be_encode 2 len)
           (be_encode 2 ck));
    try assumption; apply pack_item_H; try assumption.
  unfold len. lia.
Qed.

(** C7: with a 12-byte pseudo-header the result of [compute_cksum] does not
    depend on the value held in the checksum field of the packet; hence a
    second [get_raw_packet] with the same pseudo-header returns the bytes of
    the first and leaves the packet as it is, and for a packet built from
    16-bit ports and a payload of at most 65527 bytes both calls return. *)
Theorem C7_cksum_ignores_stored_field (p : ps_udp.UdpPacket) (ph : list byte) :
  List.length ph = 12%nat ->
  (forall c1 c2,
      0 <= c1 < 65536 ->
      0 <= c2 < 65536 ->
      ps_udp.compute_cksum (ps_udp.set_udp_cksum p c1) ph
      = ps_udp.compute_cksum (ps_udp.set_udp_cksum p c2) ph)
  /\ (forall p1 bs1,
        ps_udp.get_raw_packet p ph = Ok (p1, bs1) ->
        ps_udp.get_raw_packet p1 ph = Ok (p1, bs1))
  /\ (forall sport dport data echo n,
        0 <= sport < 65536 ->
        0 <= dport < 65536 ->
        Z.of_nat (List.length data) <= 65527 ->
        exists p0 p1 bs1,
          ps_udp.init None (PyInt sport) (PyInt dport) (Some data) echo n
          = (Ok p0, (n + 1)%N)
          /\ ps_udp.get_raw_packet p0 ph = Ok (p1, bs1)
          /\ ps_udp.get_raw_packet p1 ph = Ok (p1, bs1)).
Proof.
  intros Hph. repeat apply conj.
  - intros c1 c2 Hc1 Hc2.
    destruct (pack_item fH (ps_udp.udp_sport p)) as [hs|e] eqn:Es;
      [destruct (pack_item fH (ps_udp.udp_dport p)) as [hd|e] eqn:Ed;
       [destruct (pack_item fH (PyInt (ps_udp.udp_len p))) as [hl|e] eqn:El|]|].
    + rewrite (udp_compute_cksum_covered (ps_udp.set_udp_cksum p c1) ph
                 hs hd hl (be_encode 2 c1));
        try assumption; try (now apply pack_item_H).
      rewrite (udp_compute_cksum_covered (ps_udp.set_udp_cksum p c2) ph
                 hs hd hl (be_encode 2 c2));
        try assumption; try (now apply pack_item_H).
      reflexivity.
    + unfold ps_udp.compute_cksum, ps_udp.raw_packet, ps_udp.raw_header.
      cbn [struct_pack ps_udp.set_udp_cksum ps_udp.udp_sport ps_udp.udp_dport
           ps_udp.udp_len].
      rewrite Es, Ed, El. reflexivity.
    + unfold ps_udp.compute_cksum, ps_udp.raw_packet, ps_udp.raw_header.
      cbn [struct_pack ps_udp.set_udp_cksum ps_udp.udp_sport ps_udp.udp_dport
           ps_udp.udp_len].
      rewrite Es, Ed. reflexivity.
    + unfold ps_udp.compute_cksum, ps_udp.raw_packet, ps_udp.raw_header.
      cbn [struct_pack ps_udp.set_udp_cksum ps_udp.udp_sport ps_udp.udp_dport
           ps_udp.udp_len].
      rewrite Es. reflexivity.
  - intros p1 bs1 H.
    assert (Hrp : exists rp, ps_udp.raw_packet p = Ok rp).
    { unfold ps_udp.get_raw_packet, ps_udp.compute_cksum in H.
      destruct (ps_udp.raw_packet p) as [rp|]; [eauto|discriminate]. }
    destruct Hrp as (rp & Hrp).
    destruct (udp_raw_packet_inv p rp Hrp)
      as (hs & hd & hl & hc & Hs & Hd & Hl & Hc & _).
    rewrite (udp_get_raw_packet_covered p ph hs hd hl hc Hph Hs Hd Hl Hc) in H.
    cbv zeta in H.
    set (c := cksum_of _) in H.
    assert (Hc' : pack_item fH (PyInt c) = Ok (be_encode 2 c))
      by (apply pack_item_H, fold_complement_range).
    injection H as <- <-.
    exact (udp_get_raw_packet_covered (ps_udp.set_udp_cksum p c) ph hs hd hl
             (be_encode 2 c) Hph Hs Hd Hl Hc').
  - intros sport dport data echo n Hs Hd Hlen.
    rewrite udp_init_build_eq.
    do 3 eexists. split; [reflexivity|].
    split.
    + apply udp_built_get_raw_packet; try assumption. lia.
    + apply udp_built_get_raw_packet; try assumption.
      apply fold_complement_range.
Qed.

Lemma unpack1_encode_2 (z : Z) :
  0 <= z < 65536 -> unpack1 fH (be_encode 2 z) = Ok z.
Proof.
  intros Hz.
  rewrite <- (be_decode_encode_2 z Hz) at 2.
  now rewrite be_encode_2.
Qed.

Lemma length_encode_2 (z : Z) : List.length (be_encode 2 z) = 2%nat.
Proof. reflexivity. Qed.

(** The word at byte offset [2 * k] of a buffer that starts with [k] encoded
    16-bit fields followed by the encoding of [z]. *)
Lemma header_field_3 (a b c rest : list byte) (z : Z) :
  List.length a = 2%nat -> List.length b = 2%nat -> List.length c = 2%nat ->
  slice 6 8 (a ++ b ++ c ++ be_encode 2 z ++ rest) = be_encode 2 z.
Proof.
  intros Ha Hb Hc.
  destruct a as [|? [|? [|]]]; try discriminate.
  destruct b as [|? [|? [|]]]; try discriminate.
  destruct c as [|? [|? [|]]]; try discriminate.
  now rewrite be_encode_2.
Qed.


(** C2, as amended: for a packet built from 16-bit ports and a payload of at
    most 65527 bytes, [get_raw_packet] with a 12-byte pseudo-header stores
    and sends, at offset 6, the checksum of the pseudo-header, the UDP header
    with its checksum field zeroed and the payload zero-padded to an even
    byte count; the pad byte is not sent, and the checksum computed is sent
    as it is, whatever its value. *)
Theorem C2_cksum_field_covers (sport dport : Z) (data ph : list byte)
    (echo : option Tracker) (n : N) :
  0 <= sport < 65536 ->
  0 <= dport < 65536 ->
  Z.of_nat (List.length data) <= 65527 ->
  List.length ph = 12%nat ->
  let len := 8 + Z.of_nat (List.length data) in
  let c := cksum_of (udp_cksum_coverage ph sport dport len data) in
  exists p p' rp,
    ps_udp.init None (PyInt sport) (PyInt dport) (Some data) echo n
    = (Ok p, (n + 1)%N)
    /\ ps_udp.compute_cksum p ph = Ok c
    /\ ps_udp.get_raw_packet p ph = Ok (p', rp)
    /\ ps_udp.udp_cksum p' = c
    /\ unpack1 fH (slice 6 8 rp) = Ok c
    /\ rp = be_encode 2 sport ++ be_encode 2 dport ++ be_encode 2 len
            ++ be_encode 2 c ++ data.
Proof.
  intros Hs Hd Hlen Hph len c.
  rewrite udp_init_build_eq. fold len.
  do 3 eexists.
  split; [reflexivity|].
  split.
  { unfold c, udp_cksum_coverage.
    apply (udp_compute_cksum_covered
             (ps_udp.mkUdpPacket (mkTracker "TX" n echo) data None
                (PyInt sport) (PyInt dport) len 0)
             ph (be_encode 2 sport)
             (be_encode 2 dport) (be_encode 2 len) (be_encode 2 0));
      try assumption; apply pack_item_H; try assumption; unfold len; lia. }
  split; [apply udp_built_get_raw_packet; try assumption; lia|].
  split; [reflexivity|].
  split; [|reflexivity].
  rewrite header_field_3 by apply length_encode_2.
  apply unpack1_encode_2, fold_complement_range.
Qed.

Lemma C2_cksum_field_covers_witness :
  (0 <= 24576 < 65536 /\ 0 <= 3205 < 65536 /\ Z.of_nat 0 <= 65527
   /\ List.length sample_pseudo_header = 12%nat)
  /\ exists p p' rp,
       ps_udp.init None (PyInt 24576) (PyInt 3205) (Some []) None 0%N
       = (Ok p, 1%N)
       /\ ps_udp.get_raw_packet p sample_pseudo_header = Ok (p', rp)
       /\ unpack1 fH (slice 6 8 rp)
          = Ok (cksum_of (udp_cksum_coverage sample_pseudo_header
                            24576 3205 8 [])).
Proof.
  assert (Hs : 0 <= 24576 < 65536) by lia.
  assert (Hd : 0 <= 3205 < 65536) by lia.
  assert (Hl : Z.of_nat (@List.length byte []) <= 65527) by (simpl; lia).
  assert (Hp : List.length sample_pseudo_header = 12%nat) by reflexivity.
  split; [auto|].
  destruct (C2_cksum_field_covers 24576 3205 [] sample_pseudo_header None 0%N
              Hs Hd Hl Hp)
    as (p & p' & rp & Hi & _ & Hg & _ & Hu & _).
  exists p, p', rp. auto.
Defined.

(** C2, the claim as stated fails: the datagram from port 24576 to port 3205
    with an empty payload, sent from 192.168.9.7 to 192.168.9.1, has a
    computed checksum of zero, and the checksum field sent is 0, not
    0xFFFF. *)
Lemma C2_zero_cksum_not_sent_as_FFFF :
  (p <- sample_datagram 24576 3205 ;;
   ps_udp.compute_cksum p sample_pseudo_header) = Ok 0
  /\ sent_cksum_field (sample_datagram 24576 3205) = Ok 0
  /\ sent_cksum_field (sample_datagram 24576 3205) <> Ok 0xFFFF.
Proof.
  assert (H : sent_cksum_field (sample_datagram 24576 3205) = Ok 0)
    by (vm_compute; reflexivity).
  split; [vm_compute; reflexivity|].
  split; [exact H|].
  rewrite H. discriminate.
Qed.

Lemma C7_cksum_ignores_stored_field_witness :
  List.length sample_pseudo_header = 12%nat
  /\ ps_udp.compute_cksum
       (ps_udp.mkUdpPacket rx_tracker (bytes_of [104; 105]) None
          (PyInt 7) (PyInt 9) 10 0) sample_pseudo_header
     = ps_udp.compute_cksum
         (ps_udp.mkUdpPacket rx_tracker (bytes_of [104; 105]) None
            (PyInt 7) (PyInt 9) 10 0xBEEF) sample_pseudo_header
  /\ exists p1 bs1,
       ps_udp.get_raw_packet
         (ps_udp.mkUdpPacket rx_tracker (bytes_of [104; 105]) None
            (PyInt 7) (PyInt 9) 10 0) sample_pseudo_header
       = Ok (p1, bs1)
       /\ ps_udp.get_raw_packet p1 sample_pseudo_header = Ok (p1, bs1).
Proof.
  assert (Hp : List.length sample_pseudo_header = 12%nat) by reflexivity.
  pose proof (C7_cksum_ignores_stored_field
                (ps_udp.mkUdpPacket rx_tracker (bytes_of [104; 105]) None
                   (PyInt 7) (PyInt 9) 10 0) sample_pseudo_header Hp)
    as (Hind & Hidem & _).
  split; [exact Hp|].
  split.
  - apply (Hind 0 0xBEEF); lia.
  - do 2 eexists. split; [|apply Hidem]; vm_compute; reflexivity.
Defined.


(** ** UDP: the checksum sent and the sum a receiver computes *)

Lemma fold_once_eq (s : Z) :
  Z.land s 0xFFFF + Z.shiftr s 16 = s mod 65536 + s / 65536.
Proof.
  rewrite land_FFFF, Z.shiftr_div_pow2 by lia. reflexivity.
Qed.

Lemma fold_complement_eq (s : Z) :
  ps_udp.fold_complement s = (65535 - (s mod 65536 + s / 65536)) mod 65536.
Proof.
  unfold ps_udp.fold_complement.
  rewrite land_FFFF, fold_once_eq.
  unfold Z.lnot.
  replace (65535 - (s mod 65536 + s / 65536))
    with (Z.pred (- (s mod 65536 + s / 65536)) + 1 * 65536) by lia.
  now rewrite Z.mod_add by lia.
Qed.

Lemma fold_complement_zero_sum (s : Z) :
  0 <= s ->
  s mod 65536 + s / 65536 < 65536 ->
  ps_udp.fold_complement (s + ps_udp.fold_complement s) = 0.
Proof.
  intros Hs Hfit.
  pose proof (Z.mod_pos_bound s 65536 ltac:(lia)) as Hlo.
  pose proof (Z.div_pos s 65536 Hs ltac:(lia)) as Hhi.
  pose proof (Z.div_mod s 65536 ltac:(lia)) as Hdm.
  rewrite (fold_complement_eq s).
  rewrite (Z.mod_small (65535 - _)) by lia.
  set (lo := s mod 65536) in *. set (hi := s / 65536) in *.
  assert (Hv : s + (65535 - (lo + hi)) = 65536 * hi + (65535 - hi)) by lia.
  rewrite Hv, fold_complement_eq.
  rewrite <- (Z.mod_unique (65536 * hi + (65535 - hi)) 65536 hi (65535 - hi))
    by (try left; lia).
  rewrite <- (Z.div_unique (65536 * hi + (65535 - hi)) 65536 hi (65535 - hi))
    by (try left; lia).
  replace (65535 - (65535 - hi + hi)) with 0 by lia.
  reflexivity.
Qed.

Lemma fold_complement_carry_lost (s : Z) :
  0 <= s ->
  65536 <= s mod 65536 + s / 65536 ->
  s / 65536 < 65535 ->
  ps_udp.fold_complement (s + ps_udp.fold_complement s) = 0xFFFF.
Proof.
  intros Hs Hover Hhi'.
  pose proof (Z.mod_pos_bound s 65536 ltac:(lia)) as Hlo.
  pose proof (Z.div_pos s 65536 Hs ltac:(lia)) as Hhi.
  pose proof (Z.div_mod s 65536 ltac:(lia)) as Hdm.
  rewrite (fold_complement_eq s).
  set (lo := s mod 65536) in *. set (hi := s / 65536) in *.
  rewrite <- (Z.mod_unique (65535 - (lo + hi)) 65536 (-1) (131071 - (lo + hi)))
    by (try left; lia).
  assert (Hv : s + (131071 - (lo + hi)) = 65536 * (hi + 1) + (65535 - hi)) by lia.
  rewrite Hv, fold_complement_eq.
  rewrite <- (Z.mod_unique (65536 * (hi + 1) + (65535 - hi)) 65536 (hi + 1) (65535 - hi))
    by (try left; lia).
  rewrite <- (Z.div_unique (65536 * (hi + 1) + (65535 - hi)) 65536 (hi + 1) (65535 - hi))
    by (try left; lia).
  replace (65535 - (65535 - hi + (hi + 1))) with (-1) by lia.
  reflexivity.
Qed.

Lemma fold_left_add_acc (l : list Z) (a : Z) :
  fold_left Z.add l a = a + fold_left Z.add l 0.
Proof.
  revert a.
  induction l as [|x l IH]; intros a; cbn [fold_left]; [lia|].
  rewrite (IH (a + x)), (IH (0 + x)). lia.
Qed.

Lemma sum_cons (x : Z) (l : list Z) : sum (x :: l) = x + sum l.
Proof. unfold sum. cbn [fold_left]. now rewrite fold_left_add_acc. Qed.

Lemma word_encode_2 (z : Z) (rest : list byte) :
  0 <= z < 65536 -> words (be_encode 2 z ++ rest) = z :: words rest.
Proof.
  intros Hz.
  rewrite <- (be_decode_encode_2 z Hz) at 2.
  now rewrite be_encode_2.
Qed.

(** The word sum over pseudo-header and serialized packet is the sum the
    checksum was computed from plus the checksum itself. *)
Lemma udp_sent_sum (sport dport : Z) (data ph : list byte) (t : Tracker)
    (ck : Z) :
  0 <= sport < 65536 ->
  0 <= dport < 65536 ->
  Z.of_nat (List.length data) <= 65527 ->
  0 <= ck < 65536 ->
  List.length ph = 12%nat ->
  let len := 8 + Z.of_nat (List.length data) in
  let s := sum (words (udp_cksum_coverage ph sport dport len data)) in
  exists p' rp,
    ps_udp.get_raw_packet
      (ps_udp.mkUdpPacket t data None (PyInt sport) (PyInt dport) len ck) ph
    = Ok (p', rp)
    /\ ps_udp.udp_cksum p' = ps_udp.fold_complement s
    /\ sum (words (ph ++ rp ++ pad rp)) = s + ps_udp.fold_complement s.
Proof.
  intros Hs Hd Hlen Hck Hph len s.
  assert (Hl : 0 <= len < 65536) by (unfold len; lia).
  do 2 eexists.
  split; [apply udp_built_get_raw_packet; assumption|].
  fold len. fold s. change (cksum_of _) with (ps_udp.fold_complement s).
  split; [reflexivity|].
  pose proof (fold_complement_range s) as Hc.
  set (c := ps_udp.fold_complement s) in *.
  assert (Hpad : pad (be_encode 2 sport ++ be_encode 2 dport ++ be_encode 2 len
                        ++ be_encode 2 c ++ data) = pad data) by reflexivity.
  rewrite Hpad.
  unfold s, udp_cksum_coverage.
  destruct (list_eq_12 ph Hph)
    as (b0 & b1 & b2 & b3 & b4 & b5 & b6 & b7 & b8 & b9 & b10 & b11 & ->).
  rewrite <- !app_assoc.
  cbn [app words].
  rewrite !word_encode_2 by assumption.
  change (words (x00 :: x00 :: data ++ pad data))
    with (0 :: words (data ++ pad data)).
  rewrite !sum_cons. lia.
Qed.

Lemma sum_words_bound (n : nat) (bs : list byte) :
  (List.length bs <= n)%nat ->
  0 <= 2 * sum (words bs) <= 65535 * Z.of_nat (List.length bs).
Proof.
  revert bs.
  induction n as [|n IH]; intros bs Hn.
  - destruct bs; [cbn; lia|simpl in Hn; lia].
  - destruct bs as [|a [|b rest]]; [cbn; lia|cbn; lia|].
    cbn [words]. rewrite sum_cons.
    pose proof (word_range a b).
    assert (Hr : (List.length rest <= n)%nat) by (simpl in Hn; lia).
    specialize (IH rest Hr).
    change (List.length (a :: b :: rest)) with (S (S (List.length rest))).
    lia.
Qed.

Lemma udp_coverage_sum_bound (sport dport : Z) (data ph : list byte) :
  Z.of_nat (List.length data) <= 65527 ->
  List.length ph = 12%nat ->
  let s := sum (words (udp_cksum_coverage ph sport dport
                         (8 + Z.of_nat (List.length data)) data)) in
  0 <= s /\ s / 65536 < 65535.
Proof.
  intros Hlen Hph s.
  pose proof (sum_words_bound _ _ (Nat.le_refl (List.length
                (udp_cksum_coverage ph sport dport
                   (8 + Z.of_nat (List.length data)) data)))) as Hb.
  fold s in Hb.
  assert (Hl : Z.of_nat (List.length
                 (udp_cksum_coverage ph sport dport
                    (8 + Z.of_nat (List.length data)) data)) <= 65549).
  { unfold udp_cksum_coverage, pad.
    rewrite !length_app, !length_encode_2, Hph.
    destruct (Nat.even _); cbn [List.length]; lia. }
  split; [lia|].
  apply Z.div_lt_upper_bound; lia.
Qed.

(** X11: when the once-folded sum still fits 16 bits, the checksum routine
    of the code yields zero over pseudo-header and serialized packet; when the fold
    leaves a carry, which the code drops, it yields 0xFFFF instead. *)
Lemma udp_sent_cksum_verifies (sport dport : Z) (data ph : list byte)
    (echo : option Tracker) (n : N) :
  0 <= sport < 65536 ->
  0 <= dport < 65536 ->
  Z.of_nat (List.length data) <= 65527 ->
  List.length ph = 12%nat ->
  let s := sum (words (udp_cksum_coverage ph sport dport
                         (8 + Z.of_nat (List.length data)) data)) in
  exists p p' rp,
    ps_udp.init None (PyInt sport) (PyInt dport) (Some data) echo n
    = (Ok p, (n + 1)%N)
    /\ ps_udp.get_raw_packet p ph = Ok (p', rp)
    /\ cksum_of (ph ++ rp ++ pad rp)
       = if s mod 65536 + s / 65536 <? 65536 then 0 else 0xFFFF.
Proof.
  intros Hs Hd Hlen Hph s.
  rewrite udp_init_build_eq.
  destruct (udp_sent_sum sport dport data ph (mkTracker "TX" n echo) 0
              Hs Hd Hlen ltac:(lia) Hph)
    as (p' & rp & Hg & _ & Hsum).
  exists (ps_udp.mkUdpPacket (mkTracker "TX" n echo) data None (PyInt sport)
            (PyInt dport) (8 + Z.of_nat (List.length data)) 0), p', rp.
  split; [reflexivity|].
  split; [exact Hg|].
  unfold cksum_of. rewrite Hsum. fold s.
  destruct (udp_coverage_sum_bound sport dport data ph Hlen Hph) as [H0 Hhi].
  fold s in H0, Hhi.
  destruct (s mod 65536 + s / 65536 <? 65536) eqn:E.
  - apply Z.ltb_lt in E. now apply fold_complement_zero_sum.
  - apply Z.ltb_ge in E. now apply fold_complement_carry_lost.
Qed.

(** C4: the datagram from port 24576 to port 3206 with an empty payload,
    sent from 192.168.9.7 to 192.168.9.1, gets the checksum 0xFFFF from
    [get_raw_packet]; the words of pseudo-header and serialized packet add up
    to 0x2FFFE, whose one's-complement sum is 1, not zero, and the checksum
    routine of the code itself yields 0xFFFF over them, not 0. *)
Theorem C4_zero_sum_fails_on_lost_carry :
  sent_cksum_field (sample_datagram 24576 3206) = Ok 0xFFFF
  /\ exists ws,
       sent_words (sample_datagram 24576 3206) = Ok ws
       /\ sum ws = 0x2FFFE
       /\ one_complement_sum ws = 1
       /\ onec_zero (one_complement_sum ws) = false
       /\ ps_udp.fold_complement (sum ws) = 0xFFFF.
Proof.
  split; [vm_compute; reflexivity|].
  eexists. split; [vm_compute; reflexivity|].
  repeat split; vm_compute; reflexivity.
Qed.

(** ** Codec round trips of the shapes that parse *)

Lemma word_of_encode_2 (z : Z) :
  0 <= z < 65536 ->
  byte_to_Z (byte_of_Z (z / 256 mod 256)) * 256 + byte_to_Z (byte_of_Z (z mod 256))
  = z.
Proof.
  intros Hz.
  rewrite <- (be_decode_encode_2 z Hz) at 3.
  now rewrite be_encode_2.
Qed.

(** UDP, bytes to packet to bytes: a datagram whose length field equals the
    buffer length is reproduced by [raw_packet]. *)
Lemma udp_parse_serialize (t : Tracker) (ph b : list byte) :
  (8 <= List.length b)%nat ->
  be_decode 0 (slice 4 6 b) = Z.of_nat (List.length b) ->
  exists p,
    ps_udp.init_parse (mkParentPacket t b ph) = Ok p
    /\ ps_udp.raw_packet p = Ok b.
Proof.
  intros Hlen Hfield.
  destruct (list_ge_8 b Hlen)
    as (b0 & b1 & b2 & b3 & b4 & b5 & b6 & b7 & rest & ->).
  eexists. split; [apply udp_init_parse_header|].
  change (be_decode 0 (slice 4 6 (b0 :: b1 :: b2 :: b3 :: b4 :: b5 :: b6 :: b7 :: rest)))
    with (byte_to_Z b4 * 256 + byte_to_Z b5) in Hfield.
  rewrite Hfield, Nat2Z.id.
  rewrite (udp_raw_packet_eq _ [b0; b1] [b2; b3] [b4; b5] [b6; b7]);
    cbn [ps_udp.udp_sport ps_udp.udp_dport ps_udp.udp_len ps_udp.udp_cksum];
    try apply pack_item_word.
  - cbn [ps_udp.raw_data app].
    unfold slice.
    change (List.length (b0 :: b1 :: b2 :: b3 :: b4 :: b5 :: b6 :: b7 :: rest))
      with (8 + List.length rest)%nat.
    replace (8 + List.length rest - 8)%nat with (List.length rest) by lia.
    cbn [skipn]. now rewrite firstn_all.
  - rewrite <- Hfield. apply pack_item_word.
Qed.

(** X9: UDP, packet to bytes to packet: what [get_raw_packet] emits for a
    built packet parses back to the same ports, length and payload. *)
Lemma udp_serialize_parse (sport dport : Z) (data ph ph' : list byte)
    (t t' : Tracker) (ck : Z) :
  0 <= sport < 65536 ->
  0 <= dport < 65536 ->
  Z.of_nat (List.length data) <= 65527 ->
  0 <= ck < 65536 ->
  List.length ph = 12%nat ->
  let p := ps_udp.mkUdpPacket t data None (PyInt sport) (PyInt dport)
             (8 + Z.of_nat (List.length data)) ck in
  exists p' rp q,
    ps_udp.get_raw_packet p ph = Ok (p', rp)
    /\ ps_udp.init_parse (mkParentPacket t' rp ph') = Ok q
    /\ udp_fields q = udp_fields p
    /\ ps_udp.udp_cksum q = ps_udp.udp_cksum p'.
Proof.
  intros Hs Hd Hlen Hck Hph p.
  assert (Hl : 0 <= 8 + Z.of_nat (List.length data) < 65536) by lia.
  do 3 eexists.
  split; [apply udp_built_get_raw_packet; assumption|].
  rewrite !be_encode_2. cbn [app].
  split; [apply udp_init_parse_header|].
  unfold udp_fields, p.
  cbn [ps_udp.udp_sport ps_udp.udp_dport ps_udp.udp_len ps_udp.raw_data
       ps_udp.udp_cksum].
  rewrite !word_of_encode_2 by (try assumption; apply fold_complement_range).
  split; [|reflexivity].
  repeat f_equal.
  unfold slice. cbn [skipn].
  replace (Z.to_nat (8 + Z.of_nat (List.length data)) - 8)%nat
    with (List.length data) by lia.
  apply firstn_all.
Qed.

(** ICMPv4 echo request and echo reply, bytes to packet to bytes. *)
Lemma icmp4_echo_parse_serialize (t : Tracker) (ph b : list byte) :
  (8 <= List.length b)%nat ->
  index b 0 = Ok 0 \/ index b 0 = Ok 8 ->
  exists p,
    ps_icmpv4.init_parse (mkParentPacket t b ph) = Ok p
    /\ ps_icmpv4.raw_packet p = Ok b.
Proof.
  intros Hlen Hty.
  destruct (list_ge_8 b Hlen)
    as (b0 & b1 & b2 & b3 & b4 & b5 & b6 & b7 & rest & ->).
  cbn [index nth_error] in Hty.
  exists (ps_icmpv4.mkIcmp4Packet t (PyInt (byte_to_Z b0)) (byte_to_Z b1)
            (byte_to_Z b2 * 256 + byte_to_Z b3)
            (Some (PyInt (byte_to_Z b4 * 256 + byte_to_Z b5)))
            (Some (PyInt (byte_to_Z b6 * 256 + byte_to_Z b7)))
            (Some rest) None None None).
  assert (Hecho : ps_icmpv4.raw_echo
            (ps_icmpv4.mkIcmp4Packet t (PyInt (byte_to_Z b0)) (byte_to_Z b1)
               (byte_to_Z b2 * 256 + byte_to_Z b3)
               (Some (PyInt (byte_to_Z b4 * 256 + byte_to_Z b5)))
               (Some (PyInt (byte_to_Z b6 * 256 + byte_to_Z b7)))
               (Some rest) None None None)
          = Ok (b0 :: b1 :: b2 :: b3 :: b4 :: b5 :: b6 :: b7 :: rest)).
  { unfold ps_icmpv4.raw_echo.
    cbn [ps_icmpv4.icmpv4_type ps_icmpv4.icmpv4_code ps_icmpv4.icmpv4_cksum
         ps_icmpv4.icmpv4_ec_id ps_icmpv4.icmpv4_ec_seq
         ps_icmpv4.icmpv4_ec_raw_data ps_icmpv4.getattr bind struct_pack].
    rewrite !pack_item_byte, !pack_item_word. reflexivity. }
  unfold ps_icmpv4.init_parse, ps_icmpv4.raw_packet.
  cbn [pp_raw_data pp_tracker index nth_error bind ps_icmpv4.icmpv4_type
       ps_icmpv4.icmpv4_code py_eqb].
  rewrite Hecho.
  destruct Hty as [[= ->]|[= ->]]; split; reflexivity.
Qed.

(** ICMPv4 messages of a type other than 0, 3 and 8, bytes to packet to
    bytes. *)
Lemma icmp4_unknown_parse_serialize (t : Tracker) (ph b : list byte) (ty : Z) :
  (4 <= List.length b)%nat ->
  index b 0 = Ok ty ->
  ty <> 0 -> ty <> 3 -> ty <> 8 ->
  exists p,
    ps_icmpv4.init_parse (mkParentPacket t b ph) = Ok p
    /\ ps_icmpv4.raw_packet p = Ok b.
Proof.
  intros Hlen Hty H0 H3 H8.
  destruct (list_ge_4 b Hlen) as (b0 & b1 & b2 & b3 & rest & ->).
  cbn [index nth_error] in Hty. injection Hty as Hty.
  apply Z.eqb_neq in H0, H3, H8.
  exists (ps_icmpv4.mkIcmp4Packet t (PyInt (byte_to_Z b0)) (byte_to_Z b1)
            (byte_to_Z b2 * 256 + byte_to_Z b3)
            None None None None None (Some rest)).
  unfold ps_icmpv4.init_parse, ps_icmpv4.raw_packet.
  cbn [pp_raw_data pp_tracker index nth_error bind ps_icmpv4.icmpv4_type
       ps_icmpv4.icmpv4_code ps_icmpv4.icmpv4_cksum ps_icmpv4.unknown_message
       ps_icmpv4.getattr py_eqb struct_pack].
  rewrite !pack_item_byte, !pack_item_word.
  unfold ps_icmpv4.ICMP4_ECHOREPLY, ps_icmpv4.ICMP4_UNREACHABLE,
    ps_icmpv4.ICMP4_ECHOREQUEST.
  rewrite Hty, H0, H3, H8.
  split; reflexivity.
Qed.

(** What an echo request or reply with 16-bit fields serializes to. *)
Lemma icmp4_echo_raw_packet (t : Tracker) (ty ck id seq : Z) (data : list byte) :
  ty = 0 \/ ty = 8 ->
  0 <= ck < 65536 -> 0 <= id < 65536 -> 0 <= seq < 65536 ->
  ps_icmpv4.raw_packet
    (ps_icmpv4.mkIcmp4Packet t (PyInt ty) 0 ck (Some (PyInt id))
       (Some (PyInt seq)) (Some data) None None None)
  = Ok (byte_of_Z ty :: x00 :: be_encode 2 ck ++ be_encode 2 id
          ++ be_encode 2 seq ++ data).
Proof.
  intros Hty Hck Hid Hseq.
  assert (Hecho : ps_icmpv4.raw_echo
            (ps_icmpv4.mkIcmp4Packet t (PyInt ty) 0 ck (Some (PyInt id))
               (Some (PyInt seq)) (Some data) None None None)
          = Ok (byte_of_Z ty :: x00 :: be_encode 2 ck ++ be_encode 2 id
                  ++ be_encode 2 seq ++ data)).
  { unfold ps_icmpv4.raw_echo.
    cbn [ps_icmpv4.icmpv4_type ps_icmpv4.icmpv4_code ps_icmpv4.icmpv4_cksum
         ps_icmpv4.icmpv4_ec_id ps_icmpv4.icmpv4_ec_seq
         ps_icmpv4.icmpv4_ec_raw_data ps_icmpv4.getattr bind struct_pack].
    rewrite (pack_item_H ck), (pack_item_H id), (pack_item_H seq) by assumption.
    destruct Hty as [-> | ->]; reflexivity. }
  unfold ps_icmpv4.raw_packet.
  cbn [ps_icmpv4.icmpv4_type ps_icmpv4.icmpv4_code py_eqb].
  rewrite Hecho.
  destruct Hty as [-> | ->]; reflexivity.
Qed.

(** The parse path on an echo message that holds a whole header. *)
Lemma icmp4_init_parse_echo (t : Tracker) (ph rest : list byte)
    (b0 b1 b2 b3 b4 b5 b6 b7 : byte) :
  byte_to_Z b0 = 0 \/ byte_to_Z b0 = 8 ->
  ps_icmpv4.init_parse
    (mkParentPacket t (b0 :: b1 :: b2 :: b3 :: b4 :: b5 :: b6 :: b7 :: rest) ph)
  = Ok (ps_icmpv4.mkIcmp4Packet t (PyInt (byte_to_Z b0)) (byte_to_Z b1)
          (byte_to_Z b2 * 256 + byte_to_Z b3)
          (Some (PyInt (byte_to_Z b4 * 256 + byte_to_Z b5)))
          (Some (PyInt (byte_to_Z b6 * 256 + byte_to_Z b7)))
          (Some rest) None None None).
Proof.
  intros Hty.
  unfold ps_icmpv4.init_parse.
  cbn [pp_raw_data pp_tracker index nth_error bind].
  destruct Hty as [-> | ->]; reflexivity.
Qed.

(** X3: ICMPv4 echo request and echo reply, packet to bytes to packet:
    what [get_raw_packet] emits parses back to the same type, code, id, sequence
    number and data, for a checksum routine with 16-bit results. *)
Lemma icmp4_echo_serialize_parse (ty id seq : Z) (data d2 ph' : list byte)
    (echo : option Tracker) (n : N) (t' : Tracker) (cks : list byte -> Z) :
  ty = 0 \/ ty = 8 ->
  0 <= id < 65536 ->
  0 <= seq < 65536 ->
  (forall bs, 0 <= cks bs < 65536) ->
  let p := fst (ps_icmpv4.init_build (PyInt ty) 0 (PyInt id) (PyInt seq)
                  data d2 echo n) in
  exists p' rp q,
    ps_icmpv4.get_raw_packet cks p = Ok (p', rp)
    /\ ps_icmpv4.init_parse (mkParentPacket t' rp ph') = Ok q
    /\ icmp4_fields q = icmp4_fields p
    /\ ps_icmpv4.icmpv4_cksum q = ps_icmpv4.icmpv4_cksum p'.
Proof.
  intros Hty Hid Hseq Hcks p.
  assert (Hp : p = ps_icmpv4.mkIcmp4Packet (mkTracker "TX" n echo) (PyInt ty) 0 0
                     (Some (PyInt id)) (Some (PyInt seq)) (Some data)
                     None None None)
    by (destruct Hty as [-> | ->]; reflexivity).
  rewrite Hp.
  unfold ps_icmpv4.get_raw_packet.
  rewrite icmp4_echo_raw_packet by (try assumption; lia).
  cbn [bind].
  set (c := cks _).
  assert (Hc : 0 <= c < 65536) by apply Hcks.
  unfold ps_icmpv4.set_icmpv4_cksum.
  cbn [ps_icmpv4.tracker ps_icmpv4.icmpv4_type
       ps_icmpv4.icmpv4_code ps_icmpv4.icmpv4_ec_id ps_icmpv4.icmpv4_ec_seq
       ps_icmpv4.icmpv4_ec_raw_data ps_icmpv4.icmpv4_un_reserved
       ps_icmpv4.icmpv4_un_raw_data ps_icmpv4.unknown_message].
  rewrite icmp4_echo_raw_packet by assumption.
  cbn [bind].
  assert (Hb : byte_to_Z (byte_of_Z ty) = ty)
    by (apply byte_to_of_Z; lia).
  do 3 eexists. split; [reflexivity|].
  rewrite !be_encode_2. cbn [app].
  split; [apply icmp4_init_parse_echo; rewrite Hb; exact Hty|].
  unfold icmp4_fields.
  cbn [ps_icmpv4.icmpv4_type ps_icmpv4.icmpv4_code ps_icmpv4.icmpv4_cksum
       ps_icmpv4.icmpv4_ec_id ps_icmpv4.icmpv4_ec_seq
       ps_icmpv4.icmpv4_ec_raw_data ps_icmpv4.icmpv4_un_reserved
       ps_icmpv4.icmpv4_un_raw_data ps_icmpv4.unknown_message].
  rewrite Hb, !word_of_encode_2 by assumption.
  split; reflexivity.
Qed.

(** C3: the round trip fails for destination-unreachable messages, in both
    directions.  The well-formed message [03 03 00 00 00 00 00 00] does not
    parse, so no packet is there to serialize; and the port-unreachable
    packet built for emission serializes to exactly these bytes, which do
    not parse back. *)
Theorem C3_unreachable_round_trip_fails :
  (p <- ps_icmpv4.init_parse sample_unreachable ;; ps_icmpv4.raw_packet p)
  = Raise StructError
  /\ exists rp,
       ps_icmpv4.raw_packet
         (fst (ps_icmpv4.init_build (PyInt 3) 3 PyNone PyNone [] [] None 0%N))
       = Ok rp
       /\ rp = pp_raw_data sample_unreachable
       /\ ps_icmpv4.init_parse (mkParentPacket rx_tracker rp [])
          = Raise StructError.
Proof.
  split; [reflexivity|].
  eexists. split; [reflexivity|].
  split; reflexivity.
Qed.

(** ** The checksum field always holds a 16-bit value *)

Lemma unpack1_H_range (bs : list byte) (z : Z) :
  unpack1 fH bs = Ok z -> 0 <= z < 65536.
Proof.
  unfold unpack1, struct_unpack.
  destruct bs as [|a [|b [|c rest]]]; cbn; try discriminate.
  intros [= <-]. apply word_range.
Qed.

Lemma udp_compute_cksum_range (p : ps_udp.UdpPacket) (ph : list byte) (c : Z) :
  ps_udp.compute_cksum p ph = Ok c -> 0 <= c < 65536.
Proof.
  unfold ps_udp.compute_cksum, bind.
  repeat match goal with
         | |- context [match ?x with _ => _ end] => destruct x
         end;
    intros H; inversion H; apply fold_complement_range.
Qed.

(** X13: whatever path creates or updates a [UdpPacket], its checksum field
    is in
    the range of ["!H"]: 0 when built, a decoded word when parsed, and a
    value masked with 0xFFFF after [get_raw_packet]. *)
Lemma udp_cksum_field_16bit :
  (forall pp p, ps_udp.init_parse pp = Ok p -> 0 <= ps_udp.udp_cksum p < 65536)
  /\ (forall sport dport data echo n p,
        fst (ps_udp.init_build sport dport data echo n) = Ok p ->
        ps_udp.udp_cksum p = 0)
  /\ (forall p ph p' rp,
        ps_udp.get_raw_packet p ph = Ok (p', rp) ->
        0 <= ps_udp.udp_cksum p' < 65536).
Proof.
  repeat apply conj.
  - intros pp p. unfold ps_udp.init_parse.
    destruct (unpack1 fH (slice 4 6 _)) as [hi|]; [|discriminate].
    destruct (unpack1 fH (slice 0 2 _)) as [s|]; [|discriminate].
    destruct (unpack1 fH (slice 2 4 _)) as [d|]; [|discriminate].
    destruct (unpack1 fH (slice 6 8 _)) as [c|] eqn:Ec; [|discriminate].
    cbn [bind]. intros [= <-]. cbn [ps_udp.udp_cksum].
    now apply unpack1_H_range in Ec.
  - intros sport dport data echo n p.
    unfold ps_udp.init_build, Tracker_new.
    destruct data; cbn [fst]; [|discriminate].
    now intros [= <-].
  - intros p ph p' rp. unfold ps_udp.get_raw_packet.
    destruct (ps_udp.compute_cksum p ph) as [c|] eqn:Ec; [|discriminate].
    cbn [bind].
    destruct (ps_udp.raw_packet _); [|discriminate].
    cbn [bind]. intros [= <- _]. cbn [ps_udp.set_udp_cksum ps_udp.udp_cksum].
    now apply udp_compute_cksum_range in Ec.
Qed.


(** ** ICMPv4: the domain of the parser *)

Lemma icmp4_init_parse_unknown (t : Tracker) (ph rest : list byte)
    (b0 b1 b2 b3 : byte) :
  byte_to_Z b0 <> 0 -> byte_to_Z b0 <> 3 -> byte_to_Z b0 <> 8 ->
  ps_icmpv4.init_parse (mkParentPacket t (b0 :: b1 :: b2 :: b3 :: rest) ph)
  = Ok (ps_icmpv4.mkIcmp4Packet t (PyInt (byte_to_Z b0)) (byte_to_Z b1)
          (byte_to_Z b2 * 256 + byte_to_Z b3)
          None None None None None (Some rest)).
Proof.
  intros H0 H3 H8.
  apply Z.eqb_neq in H0, H3, H8.
  unfold ps_icmpv4.init_parse.
  cbn [pp_raw_data pp_tracker index nth_error bind].
  unfold ps_icmpv4.ICMP4_ECHOREPLY, ps_icmpv4.ICMP4_UNREACHABLE,
    ps_icmpv4.ICMP4_ECHOREQUEST.
  change (unpack1 fH (slice 2 4 (b0 :: b1 :: b2 :: b3 :: rest)))
    with (@Ok Z (byte_to_Z b2 * 256 + byte_to_Z b3)).
  cbn [bind].
  now rewrite H0, H3, H8.
Qed.

Lemma icmp4_init_parse_echo_short (t : Tracker) (ph rest : list byte)
    (b0 b1 b2 b3 : byte) :
  byte_to_Z b0 = 0 \/ byte_to_Z b0 = 8 ->
  (List.length rest < 4)%nat ->
  ps_icmpv4.init_parse (mkParentPacket t (b0 :: b1 :: b2 :: b3 :: rest) ph)
  = Raise StructError.
Proof.
  intros Hty Hlen.
  unfold ps_icmpv4.init_parse.
  cbn [pp_raw_data pp_tracker index nth_error bind].
  change (unpack1 fH (slice 2 4 (b0 :: b1 :: b2 :: b3 :: rest)))
    with (@Ok Z (byte_to_Z b2 * 256 + byte_to_Z b3)).
  cbn [bind].
  destruct rest as [|b4 [|b5 [|b6 [|b7 rest]]]];
    try (simpl in Hlen; lia);
    destruct Hty as [-> | ->]; reflexivity.
Qed.

Lemma byte_to_Z_3 (b : byte) : byte_to_Z b = 3 -> b = x03.
Proof.
  intros H. rewrite <- (byte_of_to_Z b), H. reflexivity.
Qed.

Lemma icmp4_init_parse_short (t : Tracker) (ph raw : list byte) :
  (List.length raw < 4)%nat ->
  ps_icmpv4.init_parse (mkParentPacket t raw ph)
  = if (List.length raw <? 2)%nat then Raise IndexError else Raise StructError.
Proof.
  intros Hlen.
  destruct raw as [|b0 [|b1 [|b2 [|b3 [|]]]]]; try (simpl in Hlen; lia);
    reflexivity.
Qed.

(** X1: the ICMPv4 parse path returns a packet exactly for the buffers of at
    least 8 bytes whose type is 0 or 8 and the buffers of at least 4 bytes
    whose type is none of 0, 3 and 8; it raises [IndexError] exactly for the
    buffers of fewer than 2 bytes, and [struct.error] in every other case. *)
Theorem X1_icmp4_parse_domain (pp : ParentPacket) :
  let raw := pp_raw_data pp in
  ((exists p, ps_icmpv4.init_parse pp = Ok p)
   <-> exists ty,
         index raw 0 = Ok ty
         /\ (((ty = 0 \/ ty = 8) /\ (8 <= List.length raw)%nat)
             \/ ((ty <> 0 /\ ty <> 3 /\ ty <> 8) /\ (4 <= List.length raw)%nat)))
  /\ (ps_icmpv4.init_parse pp = Raise IndexError <-> (List.length raw < 2)%nat)
  /\ (forall e,
        ps_icmpv4.init_parse pp = Raise e -> e = IndexError \/ e = StructError).
Proof.
  destruct pp as [t raw ph]. cbn [pp_raw_data]. cbv zeta.
  destruct (Nat.lt_ge_cases (List.length raw) 4) as [Hshort | Hlong].
  - rewrite (icmp4_init_parse_short t ph raw Hshort).
    split; [|split].
    + split.
      * intros [p Hp]. destruct (_ <? _)%nat; discriminate.
      * intros (ty & _ & [[_ H] | [_ H]]); lia.
    + destruct (List.length raw <? 2)%nat eqn:E.
      * apply Nat.ltb_lt in E. tauto.
      * apply Nat.ltb_ge in E. split; [discriminate | lia].
    + intros e. destruct (_ <? _)%nat; intros [= <-]; auto.
  - destruct (list_ge_4 raw Hlong) as (b0 & b1 & b2 & b3 & rest & ->).
    cbn [index nth_error].
    change (List.length (b0 :: b1 :: b2 :: b3 :: rest))
      with (4 + List.length rest)%nat.
    assert (Hcases : byte_to_Z b0 = 3
                     \/ ((byte_to_Z b0 = 0 \/ byte_to_Z b0 = 8)
                         /\ (List.length rest < 4)%nat)
                     \/ ((byte_to_Z b0 = 0 \/ byte_to_Z b0 = 8)
                         /\ (4 <= List.length rest)%nat)
                     \/ (byte_to_Z b0 <> 0 /\ byte_to_Z b0 <> 3
                         /\ byte_to_Z b0 <> 8)) by lia.
    destruct Hcases as [H3 | [[Hty Hlen] | [[Hty Hlen] | (H0 & H3 & H8)]]].
    + rewrite (byte_to_Z_3 b0 H3), icmp4_init_parse_unreachable_raises.
      change (byte_to_Z x03) with 3.
      split; [|split].
      * split; [intros [p Hp]; discriminate|].
        intros (ty & [= <-] & [[H _] | [(_ & H & _) _]]); lia.
      * split; [discriminate | lia].
      * intros e [= <-]. auto.
    + rewrite (icmp4_init_parse_echo_short t ph rest b0 b1 b2 b3 Hty Hlen).
      split; [|split].
      * split; [intros [p Hp]; discriminate|].
        intros (ty & [= <-] & [[_ H] | [(H0 & _ & H8) _]]); lia.
      * split; [discriminate | lia].
      * intros e [= <-]. auto.
    + destruct (list_ge_4 rest Hlen) as (b4 & b5 & b6 & b7 & rest' & ->).
      rewrite (icmp4_init_parse_echo t ph rest' b0 b1 b2 b3 b4 b5 b6 b7 Hty).
      split; [|split].
      * split; [|eauto].
        intros _. exists (byte_to_Z b0). split; [reflexivity|].
        left. split; [exact Hty | simpl; lia].
      * split; [discriminate | lia].
      * intros e. discriminate.
    + rewrite (icmp4_init_parse_unknown t ph rest b0 b1 b2 b3 H0 H3 H8).
      split; [|split].
      * split; [|eauto].
        intros _. exists (byte_to_Z b0). split; [reflexivity|].
        right. split; [auto | lia].
      * split; [discriminate | lia].
      * intros e. discriminate.
Qed.

(** ** ICMPv4: a parsed packet stands for the bytes received *)

Lemma icmp4_parse_serialize (pp : ParentPacket) (p : ps_icmpv4.Icmp4Packet) :
  ps_icmpv4.init_parse pp = Ok p ->
  ps_icmpv4.raw_packet p = Ok (pp_raw_data pp).
Proof.
  destruct pp as [t raw ph]. cbn [pp_raw_data].
  intros Hp.
  destruct (Nat.lt_ge_cases (List.length raw) 4) as [Hshort | Hlong].
  { rewrite (icmp4_init_parse_short t ph raw Hshort) in Hp.
    destruct (_ <? _)%nat; discriminate. }
  destruct (list_ge_4 raw Hlong) as (b0 & b1 & b2 & b3 & rest & Hraw).
  assert (Hcases : byte_to_Z b0 = 3
                   \/ ((byte_to_Z b0 = 0 \/ byte_to_Z b0 = 8)
                       /\ (List.length rest < 4)%nat)
                   \/ ((byte_to_Z b0 = 0 \/ byte_to_Z b0 = 8)
                       /\ (4 <= List.length rest)%nat)
                   \/ (byte_to_Z b0 <> 0 /\ byte_to_Z b0 <> 3
                       /\ byte_to_Z b0 <> 8)) by lia.
  destruct Hcases as [H3 | [[Hty Hlen] | [[Hty Hlen] | (H0 & H3 & H8)]]].
  - rewrite Hraw, (byte_to_Z_3 b0 H3), icmp4_init_parse_unreachable_raises in Hp.
    discriminate.
  - rewrite Hraw, (icmp4_init_parse_echo_short t ph rest b0 b1 b2 b3 Hty Hlen)
      in Hp.
    discriminate.
  - destruct (icmp4_echo_parse_serialize t ph raw) as (q & Hq & Hser).
    + rewrite Hraw. simpl. lia.
    + rewrite Hraw. cbn [index nth_error]. destruct Hty as [-> | ->]; auto.
    + rewrite Hq in Hp. injection Hp as <-. exact Hser.
  - destruct (icmp4_unknown_parse_serialize t ph raw (byte_to_Z b0))
      as (q & Hq & Hser); try assumption.
    + now rewrite Hraw.
    + rewrite Hq in Hp. injection Hp as <-. exact Hser.
Qed.

(** X2: whenever the ICMPv4 parse path returns a packet, [raw_packet] of that
    packet is the buffer it was parsed from, byte for byte; so [__len__] is
    the length of the buffer and [validate_cksum] tests the checksum routine
    on the bytes received, received checksum included. *)
Theorem X2_icmp4_parsed_packet_is_its_buffer (pp : ParentPacket)
    (p : ps_icmpv4.Icmp4Packet) (cks : list byte -> Z) :
  ps_icmpv4.init_parse pp = Ok p ->
  ps_icmpv4.raw_packet p = Ok (pp_raw_data pp)
  /\ ps_icmpv4.__len__ p = Ok (List.length (pp_raw_data pp))
  /\ ps_icmpv4.validate_cksum cks p = Ok (cks (pp_raw_data pp) =? 0).
Proof.
  intros Hp.
  pose proof (icmp4_parse_serialize pp p Hp) as Hser.
  unfold ps_icmpv4.__len__, ps_icmpv4.validate_cksum.
  rewrite Hser. cbn [bind].
  now rewrite negb_involutive.
Qed.

Lemma X2_icmp4_parsed_packet_is_its_buffer_witness :
  exists p,
    ps_icmpv4.init_parse sample_echo_request = Ok p
    /\ ps_icmpv4.raw_packet p = Ok (pp_raw_data sample_echo_request)
    /\ ps_icmpv4.__len__ p = Ok 10%nat.
Proof.
  eexists.
  assert (H : ps_icmpv4.init_parse sample_echo_request = Ok _) by reflexivity.
  split; [exact H|].
  destruct (X2_icmp4_parsed_packet_is_its_buffer sample_echo_request _
              (fun _ => 0) H) as (Hr & Hl & _).
  split; [exact Hr | exact Hl].
Defined.

(** ** ICMPv4: what [get_raw_packet] changes *)

Lemma pack_item_B_length (v : pyval) (bs : list byte) :
  pack_item fB v = Ok bs -> exists a, bs = [a].
Proof.
  destruct v as [|z]; unfold pack_item; [discriminate|].
  destruct ((0 <=? z) && (z <? _)); [|discriminate].
  intros [= <-]. eauto.
Qed.

Lemma pack_item_H_cases (c : Z) :
  pack_item fH (PyInt c)
  = if (0 <=? c) && (c <? 65536) then Ok (be_encode 2 c) else Raise StructError.
Proof. reflexivity. Qed.

(** The header of every layout starts with type, code and checksum: packing
    it with another checksum changes the two checksum bytes only, and fails
    only when the new checksum does not fit 16 bits. *)
Lemma struct_pack_cksum_slot (fs : list fmt) (vs : list pyval) (ty code : pyval)
    (ck : Z) (h : list byte) :
  struct_pack (fB :: fB :: fH :: fs) (ty :: code :: PyInt ck :: vs) = Ok h ->
  exists a b tl,
    h = a :: b :: be_encode 2 ck ++ tl
    /\ forall c,
         struct_pack (fB :: fB :: fH :: fs) (ty :: code :: PyInt c :: vs)
         = if (0 <=? c) && (c <? 65536)
           then Ok (a :: b :: be_encode 2 c ++ tl)
           else Raise StructError.
Proof.
  cbn [struct_pack].
  destruct (pack_item fB ty) as [ha|] eqn:Ea; [|discriminate].
  destruct (pack_item fB code) as [hb|] eqn:Eb; [|discriminate].
  destruct (pack_item_B_length _ _ Ea) as (a & ->).
  destruct (pack_item_B_length _ _ Eb) as (b & ->).
  rewrite (pack_item_H_cases ck).
  destruct ((0 <=? ck) && (ck <? 65536)); [|discriminate].
  destruct (struct_pack fs vs) as [tl|] eqn:Et; [|discriminate].
  cbn [bind app]. intros [= <-].
  exists a, b, tl. split; [reflexivity|].
  intros c. rewrite (pack_item_H_cases c).
  destruct ((0 <=? c) && (c <? 65536)); reflexivity.
Qed.

Lemma icmp4_raw_packet_cksum_slot (p : ps_icmpv4.Icmp4Packet) (rp : list byte) :
  ps_icmpv4.raw_packet p = Ok rp ->
  exists a b tl,
    rp = a :: b :: be_encode 2 (ps_icmpv4.icmpv4_cksum p) ++ tl
    /\ forall c,
         ps_icmpv4.raw_packet (ps_icmpv4.set_icmpv4_cksum p c)
         = if (0 <=? c) && (c <? 65536)
           then Ok (a :: b :: be_encode 2 c ++ tl)
           else Raise StructError.
Proof.
  destruct p as [t ty code ck id seq ed ur ud um].
  unfold ps_icmpv4.raw_packet, ps_icmpv4.raw_echo, ps_icmpv4.set_icmpv4_cksum.
  cbn [ps_icmpv4.tracker ps_icmpv4.icmpv4_type ps_icmpv4.icmpv4_code
       ps_icmpv4.icmpv4_cksum ps_icmpv4.icmpv4_ec_id ps_icmpv4.icmpv4_ec_seq
       ps_icmpv4.icmpv4_ec_raw_data ps_icmpv4.icmpv4_un_reserved
       ps_icmpv4.icmpv4_un_raw_data ps_icmpv4.unknown_message].
  destruct (py_eqb ty ps_icmpv4.ICMP4_ECHOREPLY);
    [|destruct (py_eqb ty ps_icmpv4.ICMP4_UNREACHABLE
                && (code =? ps_icmpv4.ICMP4_UNREACHABLE_PORT));
      [|destruct (py_eqb ty ps_icmpv4.ICMP4_ECHOREQUEST)]].
  - destruct id as [id|]; [|discriminate].
    destruct seq as [seq|]; [|discriminate].
    cbn [ps_icmpv4.getattr bind].
    destruct (struct_pack _ _) as [h|] eqn:Eh; [|discriminate].
    destruct ed as [ed|]; [|discriminate].
    cbn [ps_icmpv4.getattr bind]. intros [= <-].
    destruct (struct_pack_cksum_slot _ _ _ _ _ _ Eh) as (a & b & tl & -> & Hc).
    exists a, b, (tl ++ ed). split; [cbn [app]; now rewrite <- app_assoc|].
    intros c. rewrite (Hc c).
    destruct ((0 <=? c) && (c <? 65536)); cbn [bind app];
      [now rewrite <- app_assoc | reflexivity].
  - destruct ur as [ur|]; [|discriminate].
    cbn [ps_icmpv4.getattr bind].
    destruct (struct_pack _ _) as [h|] eqn:Eh; [|discriminate].
    destruct ud as [ud|]; [|discriminate].
    cbn [ps_icmpv4.getattr bind]. intros [= <-].
    destruct (struct_pack_cksum_slot _ _ _ _ _ _ Eh) as (a & b & tl & -> & Hc).
    exists a, b, (tl ++ ud). split; [cbn [app]; now rewrite <- app_assoc|].
    intros c. rewrite (Hc c).
    destruct ((0 <=? c) && (c <? 65536)); cbn [bind app];
      [now rewrite <- app_assoc | reflexivity].
  - destruct id as [id|]; [|discriminate].
    destruct seq as [seq|]; [|discriminate].
    cbn [ps_icmpv4.getattr bind].
    destruct (struct_pack _ _) as [h|] eqn:Eh; [|discriminate].
    destruct ed as [ed|]; [|discriminate].
    cbn [ps_icmpv4.getattr bind]. intros [= <-].
    destruct (struct_pack_cksum_slot _ _ _ _ _ _ Eh) as (a & b & tl & -> & Hc).
    exists a, b, (tl ++ ed). split; [cbn [app]; now rewrite <- app_assoc|].
    intros c. rewrite (Hc c).
    destruct ((0 <=? c) && (c <? 65536)); cbn [bind app];
      [now rewrite <- app_assoc | reflexivity].
  - destruct (struct_pack _ _) as [h|] eqn:Eh; [|discriminate].
    destruct um as [um|]; [|discriminate].
    cbn [ps_icmpv4.getattr bind]. intros [= <-].
    destruct (struct_pack_cksum_slot _ _ _ _ _ _ Eh) as (a & b & tl & -> & Hc).
    exists a, b, (tl ++ um). split; [cbn [app]; now rewrite <- app_assoc|].
    intros c. rewrite (Hc c).
    destruct ((0 <=? c) && (c <? 65536)); cbn [bind app];
      [now rewrite <- app_assoc | reflexivity].
Qed.

(** X5: on a packet that serializes to [rp], [get_raw_packet] stores
    [inet_cksum.compute_cksum(rp)], computed over the bytes with the checksum
    field as it stood, and changes nothing else: the bytes returned have the
    length of [rp], the same type and code bytes, the new checksum at offset
    2 and the same bytes from offset 4 on.  It raises [struct.error] exactly
    when that checksum does not fit 16 bits. *)
Theorem X5_icmp4_get_raw_packet_sets_cksum_only (cks : list byte -> Z)
    (p : ps_icmpv4.Icmp4Packet) (rp : list byte) :
  ps_icmpv4.raw_packet p = Ok rp ->
  let c := cks rp in
  (~ 0 <= c < 65536 -> ps_icmpv4.get_raw_packet cks p = Raise StructError)
  /\ (0 <= c < 65536 ->
      exists rp',
        ps_icmpv4.get_raw_packet cks p
        = Ok (ps_icmpv4.set_icmpv4_cksum p c, rp')
        /\ List.length rp' = List.length rp
        /\ firstn 2 rp' = firstn 2 rp
        /\ unpack1 fH (slice 2 4 rp') = Ok c
        /\ skipn 4 rp' = skipn 4 rp).
Proof.
  intros Hrp c.
  destruct (icmp4_raw_packet_cksum_slot p rp Hrp) as (a & b & tl & -> & Hc).
  unfold ps_icmpv4.get_raw_packet. rewrite Hrp. cbn [bind]. fold c.
  rewrite (Hc c).
  split.
  - intros Hout.
    destruct ((0 <=? c) && (c <? 65536)) eqn:E; [|reflexivity].
    apply andb_true_iff in E. destruct E as [E1 E2].
    apply Z.leb_le in E1. apply Z.ltb_lt in E2. lia.
  - intros Hin.
    replace ((0 <=? c) && (c <? 65536)) with true
      by (symmetry; apply andb_true_iff; split;
          [apply Z.leb_le | apply Z.ltb_lt]; lia).
    cbn [bind].
    eexists. split; [reflexivity|].
    rewrite !be_encode_2. cbn [app].
    repeat split.
    change (slice 2 4 (a :: b :: ?x :: ?y :: tl)) with [x; y].
    rewrite <- be_encode_2. now apply unpack1_encode_2.
Qed.

(** ** ICMPv4: the two shapes of a parsed packet *)

Lemma icmp4_init_parse_inv (pp : ParentPacket) (p : ps_icmpv4.Icmp4Packet) :
  ps_icmpv4.init_parse pp = Ok p ->
  (exists b0 b1 b2 b3 b4 b5 b6 b7 rest,
      pp_raw_data pp = b0 :: b1 :: b2 :: b3 :: b4 :: b5 :: b6 :: b7 :: rest
      /\ (byte_to_Z b0 = 0 \/ byte_to_Z b0 = 8)
      /\ p = ps_icmpv4.mkIcmp4Packet (pp_tracker pp) (PyInt (byte_to_Z b0))
               (byte_to_Z b1) (byte_to_Z b2 * 256 + byte_to_Z b3)
               (Some (PyInt (byte_to_Z b4 * 256 + byte_to_Z b5)))
               (Some (PyInt (byte_to_Z b6 * 256 + byte_to_Z b7)))
               (Some rest) None None None)
  \/ (exists b0 b1 b2 b3 rest,
        pp_raw_data pp = b0 :: b1 :: b2 :: b3 :: rest
        /\ (byte_to_Z b0 <> 0 /\ byte_to_Z b0 <> 3 /\ byte_to_Z b0 <> 8)
        /\ p = ps_icmpv4.mkIcmp4Packet (pp_tracker pp) (PyInt (byte_to_Z b0))
                 (byte_to_Z b1) (byte_to_Z b2 * 256 + byte_to_Z b3)
                 None None None None None (Some rest)).
Proof.
  destruct pp as [t raw ph]. cbn [pp_raw_data pp_tracker].
  intros Hp.
  destruct (Nat.lt_ge_cases (List.length raw) 4) as [Hshort | Hlong].
  { rewrite (icmp4_init_parse_short t ph raw Hshort) in Hp.
    destruct (_ <? _)%nat; discriminate. }
  destruct (list_ge_4 raw Hlong) as (b0 & b1 & b2 & b3 & rest & ->).
  assert (Hcases : byte_to_Z b0 = 3
                   \/ ((byte_to_Z b0 = 0 \/ byte_to_Z b0 = 8)
                       /\ (List.length rest < 4)%nat)
                   \/ ((byte_to_Z b0 = 0 \/ byte_to_Z b0 = 8)
                       /\ (4 <= List.length rest)%nat)
                   \/ (byte_to_Z b0 <> 0 /\ byte_to_Z b0 <> 3
                       /\ byte_to_Z b0 <> 8)) by lia.
  destruct Hcases as [H3 | [[Hty Hlen] | [[Hty Hlen] | (H0 & H3 & H8)]]].
  - rewrite (byte_to_Z_3 b0 H3), icmp4_init_parse_unreachable_raises in Hp.
    discriminate.
  - rewrite (icmp4_init_parse_echo_short t ph rest b0 b1 b2 b3 Hty Hlen) in Hp.
    discriminate.
  - destruct (list_ge_4 rest Hlen) as (b4 & b5 & b6 & b7 & rest' & ->).
    rewrite (icmp4_init_parse_echo t ph rest' b0 b1 b2 b3 b4 b5 b6 b7 Hty) in Hp.
    injection Hp as <-.
    left. exists b0, b1, b2, b3, b4, b5, b6, b7, rest'. auto.
  - rewrite (icmp4_init_parse_unknown t ph rest b0 b1 b2 b3 H0 H3 H8) in Hp.
    injection Hp as <-.
    right. exists b0, b1, b2, b3, rest. auto.
Qed.

(** ** ICMPv4: answering an echo request *)

(** X4: building an echo reply from the id, sequence number and data of a
    parsed echo request, with the tracker of the request as echo tracker,
    and serializing it gives a message as long as the request, with type 0
    and code 0, whose bytes from offset 4 on (id, sequence number, data) are
    those of the request; its tracker links back to the tracker of the
    request. *)
Theorem X4_echo_reply_mirrors_request (pp : ParentPacket)
    (req : ps_icmpv4.Icmp4Packet) (n : N) (cks : list byte -> Z) :
  ps_icmpv4.init_parse pp = Ok req ->
  ps_icmpv4.icmpv4_type req = PyInt ps_icmpv4.ICMP4_ECHOREQUEST ->
  (forall bs, 0 <= cks bs < 65536) ->
  exists id seq data reply reply' rp,
    ps_icmpv4.icmpv4_ec_id req = Some id
    /\ ps_icmpv4.icmpv4_ec_seq req = Some seq
    /\ ps_icmpv4.icmpv4_ec_raw_data req = Some data
    /\ ps_icmpv4.init None (PyInt ps_icmpv4.ICMP4_ECHOREPLY) 0 id seq data []
         (Some (ps_icmpv4.tracker req)) n
       = (Ok reply, (n + 1)%N)
    /\ ps_icmpv4.get_raw_packet cks reply = Ok (reply', rp)
    /\ List.length rp = List.length (pp_raw_data pp)
    /\ firstn 2 rp = [x00; x00]
    /\ skipn 4 rp = skipn 4 (pp_raw_data pp)
    /\ ps_icmpv4.tracker reply' = mkTracker "TX" n (Some (pp_tracker pp)).
Proof.
  intros Hp Hty Hcks.
  destruct (icmp4_init_parse_inv pp req Hp)
    as [(b0 & b1 & b2 & b3 & b4 & b5 & b6 & b7 & rest & Hraw & _ & ->)
       | (b0 & b1 & b2 & b3 & rest & Hraw & (H0 & H3 & H8) & ->)].
  2: { cbn [ps_icmpv4.icmpv4_type] in Hty. injection Hty as Hty.
       unfold ps_icmpv4.ICMP4_ECHOREQUEST in Hty. lia. }
  rewrite Hraw.
  cbn [ps_icmpv4.icmpv4_ec_id ps_icmpv4.icmpv4_ec_seq
       ps_icmpv4.icmpv4_ec_raw_data ps_icmpv4.tracker].
  set (id := byte_to_Z b4 * 256 + byte_to_Z b5).
  set (seq := byte_to_Z b6 * 256 + byte_to_Z b7).
  assert (Hid : 0 <= id < 65536) by apply word_range.
  assert (Hseq : 0 <= seq < 65536) by apply word_range.
  exists (PyInt id), (PyInt seq), rest.
  do 3 eexists.
  split; [reflexivity|]. split; [reflexivity|]. split; [reflexivity|].
  split; [reflexivity|].
  unfold ps_icmpv4.ICMP4_ECHOREPLY.
  cbn [fst ps_icmpv4.init_build Tracker_new py_eqb andb Z.eqb].
  unfold ps_icmpv4.get_raw_packet.
  rewrite icmp4_echo_raw_packet by (try assumption; lia).
  cbn [bind]. set (c := cks _).
  assert (Hc : 0 <= c < 65536) by apply Hcks.
  unfold ps_icmpv4.set_icmpv4_cksum.
  cbn [ps_icmpv4.tracker ps_icmpv4.icmpv4_type ps_icmpv4.icmpv4_code
       ps_icmpv4.icmpv4_ec_id ps_icmpv4.icmpv4_ec_seq
       ps_icmpv4.icmpv4_ec_raw_data ps_icmpv4.icmpv4_un_reserved
       ps_icmpv4.icmpv4_un_raw_data ps_icmpv4.unknown_message].
  rewrite icmp4_echo_raw_packet by (try assumption; lia).
  cbn [bind].
  split; [reflexivity|].
  unfold id, seq. rewrite !be_encode_word, (be_encode_2 (cks _)).
  repeat split.
Qed.

(** ** ICMPv4: the log string *)

Lemma icmp4_str_echo_attrs (t : Tracker) (ty : pyval) (code ck : Z)
    (id seq : pyval) (ed : option (list byte)) (ur : option Z)
    (ud um : option (list byte)) :
  exists s,
    ps_icmpv4.__str__
      (ps_icmpv4.mkIcmp4Packet t ty code ck (Some id) (Some seq) ed ur ud um)
    = Ok s.
Proof.
  unfold ps_icmpv4.__str__, ps_icmpv4.str_echo.
  cbn [ps_icmpv4.icmpv4_type ps_icmpv4.icmpv4_code ps_icmpv4.icmpv4_ec_id
       ps_icmpv4.icmpv4_ec_seq ps_icmpv4.getattr bind].
  destruct (py_eqb ty ps_icmpv4.ICMP4_ECHOREPLY); cbn [bind];
    destruct (py_eqb ty ps_icmpv4.ICMP4_UNREACHABLE && _); cbn [bind];
    destruct (py_eqb ty ps_icmpv4.ICMP4_ECHOREQUEST); cbn [bind]; eauto.
Qed.

Lemma icmp4_str_not_echo (p : ps_icmpv4.Icmp4Packet) :
  py_eqb (ps_icmpv4.icmpv4_type p) ps_icmpv4.ICMP4_ECHOREPLY = false ->
  py_eqb (ps_icmpv4.icmpv4_type p) ps_icmpv4.ICMP4_ECHOREQUEST = false ->
  exists s, ps_icmpv4.__str__ p = Ok s.
Proof.
  intros H0 H8.
  unfold ps_icmpv4.__str__. rewrite H0, H8. cbn [bind].
  destruct (py_eqb _ ps_icmpv4.ICMP4_UNREACHABLE && _); cbn [bind]; eauto.
Qed.

Lemma icmp4_str_echo_no_attrs (t : Tracker) (ty : pyval) (code ck : Z)
    (seq : option pyval) (ed : option (list byte)) (ur : option Z)
    (ud um : option (list byte)) :
  ty = PyInt 0 \/ ty = PyInt 8 ->
  ps_icmpv4.__str__
    (ps_icmpv4.mkIcmp4Packet t ty code ck None seq ed ur ud um)
  = Raise AttributeError.
Proof.
  intros [-> | ->]; unfold ps_icmpv4.__str__, ps_icmpv4.str_echo;
    cbn [ps_icmpv4.icmpv4_type ps_icmpv4.icmpv4_code ps_icmpv4.icmpv4_ec_id
         ps_icmpv4.getattr bind py_eqb];
    destruct (code =? ps_icmpv4.ICMP4_UNREACHABLE_PORT); reflexivity.
Qed.

(** X6: [__str__] returns a string on every parsed packet.  On a packet from
    the build path it raises [AttributeError] exactly when the type is 0 or
    8 and the code is not 0 (no id and sequence number were stored), and
    returns a string otherwise, also for the types that cannot be
    serialized. *)
Theorem X6_icmp4_str_raises_on_half_built_echo :
  (forall pp p,
      ps_icmpv4.init_parse pp = Ok p -> exists s, ps_icmpv4.__str__ p = Ok s)
  /\ (forall ty code id seq d1 d2 echo n,
        let p := fst (ps_icmpv4.init_build ty code id seq d1 d2 echo n) in
        ((ty = PyInt 0 \/ ty = PyInt 8) /\ code <> 0 ->
         ps_icmpv4.__str__ p = Raise AttributeError)
        /\ (~ ((ty = PyInt 0 \/ ty = PyInt 8) /\ code <> 0) ->
            exists s, ps_icmpv4.__str__ p = Ok s)).
Proof.
  split.
  - intros pp p Hp.
    destruct (icmp4_init_parse_inv pp p Hp)
      as [(b0 & b1 & b2 & b3 & b4 & b5 & b6 & b7 & rest & _ & _ & ->)
         | (b0 & b1 & b2 & b3 & rest & _ & (H0 & H3 & H8) & ->)].
    + apply icmp4_str_echo_attrs.
    + apply icmp4_str_not_echo; cbn [ps_icmpv4.icmpv4_type py_eqb];
        now apply Z.eqb_neq.
  - intros ty code id seq d1 d2 echo n p. subst p.
    unfold ps_icmpv4.init_build, Tracker_new,
      ps_icmpv4.ICMP4_ECHOREPLY, ps_icmpv4.ICMP4_UNREACHABLE,
      ps_icmpv4.ICMP4_UNREACHABLE_PORT, ps_icmpv4.ICMP4_ECHOREQUEST.
    cbn [fst].
    split.
    + intros [Hty Hcode].
      apply Z.eqb_neq in Hcode.
      destruct Hty as [-> | ->]; cbn [py_eqb Z.eqb Pos.eqb andb];
        rewrite Hcode; cbn [andb]; apply icmp4_str_echo_no_attrs; auto.
    + intros Hnot.
      destruct (py_eqb ty 0 && (code =? 0)) eqn:E0;
        [apply icmp4_str_echo_attrs|].
      destruct (py_eqb ty 3 && (code =? 3)) eqn:E3;
        [apply icmp4_str_not_echo; cbn [ps_icmpv4.icmpv4_type];
         destruct ty as [|z]; try discriminate;
         cbn [py_eqb] in *; apply andb_true_iff in E3; destruct E3 as [E3 _];
         apply Z.eqb_eq in E3; subst z; reflexivity|].
      destruct (py_eqb ty 8 && (code =? 0)) eqn:E8;
        [apply icmp4_str_echo_attrs|].
      apply icmp4_str_not_echo; cbn [ps_icmpv4.icmpv4_type];
        unfold ps_icmpv4.ICMP4_ECHOREPLY, ps_icmpv4.ICMP4_ECHOREQUEST;
        destruct ty as [|z]; try reflexivity; cbn [py_eqb] in *.
      * destruct (z =? 0) eqn:Ez; [|reflexivity].
        apply Z.eqb_eq in Ez. subst z. cbn [andb] in E0.
        apply Z.eqb_neq in E0. exfalso. apply Hnot. auto.
      * destruct (z =? 8) eqn:Ez; [|reflexivity].
        apply Z.eqb_eq in Ez. subst z. cbn [andb] in E8.
        apply Z.eqb_neq in E8. exfalso. apply Hnot. auto.
Qed.

(** ** UDP: the domain of the parser and what a parsed packet serializes to *)

Lemma udp_init_parse_short (t : Tracker) (raw ph : list byte) :
  (List.length raw < 8)%nat ->
  ps_udp.init_parse (mkParentPacket t raw ph) = Raise StructError.
Proof.
  intros Hlen.
  do 8 (destruct raw as [|? raw]; [reflexivity|]).
  simpl in Hlen. lia.
Qed.

(** X7: the UDP parse path returns a packet exactly for the buffers of at
    least 8 bytes, and raises [struct.error] on every shorter one. *)
Theorem X7_udp_parse_domain (pp : ParentPacket) :
  ((exists p, ps_udp.init_parse pp = Ok p)
   <-> (8 <= List.length (pp_raw_data pp))%nat)
  /\ ((List.length (pp_raw_data pp) < 8)%nat ->
      ps_udp.init_parse pp = Raise StructError).
Proof.
  destruct pp as [t raw ph]. cbn [pp_raw_data].
  split; [split|].
  - intros [p Hp].
    destruct (Nat.lt_ge_cases (List.length raw) 8) as [Hshort | Hlong];
      [|exact Hlong].
    rewrite (udp_init_parse_short t raw ph Hshort) in Hp. discriminate.
  - intros Hlen.
    destruct (list_ge_8 raw Hlen)
      as (b0 & b1 & b2 & b3 & b4 & b5 & b6 & b7 & rest & ->).
    eexists. apply udp_init_parse_header.
  - apply udp_init_parse_short.
Qed.

(** X8: a parsed UDP packet serializes to the first [max(8, udp_len)] bytes
    of the buffer it was parsed from: trailing bytes past the length field
    are dropped, a length field below 8 leaves the bare header, and the
    buffer is reproduced whole exactly when it is not longer than that. *)
Theorem X8_udp_parsed_packet_is_buffer_prefix (pp : ParentPacket)
    (p : ps_udp.UdpPacket) :
  ps_udp.init_parse pp = Ok p ->
  let raw := pp_raw_data pp in
  let n := Nat.max 8 (Z.to_nat (ps_udp.udp_len p)) in
  ps_udp.raw_packet p = Ok (firstn n raw)
  /\ ps_udp.__len__ p = Ok (Nat.min n (List.length raw))
  /\ (ps_udp.raw_packet p = Ok raw <-> (List.length raw <= n)%nat).
Proof.
  destruct pp as [t raw ph]. cbn [pp_raw_data].
  intros Hp.
  destruct (Nat.lt_ge_cases (List.length raw) 8) as [Hshort | Hlong].
  { rewrite (udp_init_parse_short t raw ph Hshort) in Hp. discriminate. }
  destruct (list_ge_8 raw Hlong)
    as (b0 & b1 & b2 & b3 & b4 & b5 & b6 & b7 & rest & ->).
  rewrite udp_init_parse_header in Hp. injection Hp as <-.
  cbn [ps_udp.udp_len]. cbv zeta.
  set (len := byte_to_Z b4 * 256 + byte_to_Z b5).
  set (raw := b0 :: b1 :: b2 :: b3 :: b4 :: b5 :: b6 :: b7 :: rest).
  assert (Hser : ps_udp.raw_packet
                   (ps_udp.mkUdpPacket t (slice 8 (Z.to_nat len) raw) (Some ph)
                      (PyInt (byte_to_Z b0 * 256 + byte_to_Z b1))
                      (PyInt (byte_to_Z b2 * 256 + byte_to_Z b3)) len
                      (byte_to_Z b6 * 256 + byte_to_Z b7))
                 = Ok (firstn (Nat.max 8 (Z.to_nat len)) raw)).
  { rewrite (udp_raw_packet_eq _ [b0; b1] [b2; b3] [b4; b5] [b6; b7]);
      try apply pack_item_word.
    cbn [ps_udp.raw_data]. unfold slice, raw.
    replace (Nat.max 8 (Z.to_nat len)) with (8 + (Z.to_nat len - 8))%nat by lia.
    reflexivity. }
  remember (Nat.max 8 (Z.to_nat len)) as n eqn:Hn. clear Hn.
  split; [exact Hser|].
  split.
  - unfold ps_udp.__len__. rewrite Hser. cbn [bind].
    now rewrite length_firstn.
  - rewrite Hser. split.
    + intros H.
      assert (H' : firstn n raw = raw) by congruence.
      apply (f_equal (@List.length byte)) in H'.
      rewrite length_firstn in H'. lia.
    + intros H. now rewrite firstn_all2.
Qed.

(** ** UDP: when the checksum routine raises *)

Lemma words_length_le (n : nat) (bs : list byte) :
  (List.length bs <= n)%nat ->
  List.length (words bs) = Nat.div2 (List.length bs).
Proof.
  revert bs.
  induction n as [|n IH]; intros bs Hn.
  - destruct bs; [reflexivity|simpl in Hn; lia].
  - destruct bs as [|a [|b rest]]; [reflexivity|reflexivity|].
    cbn [words List.length Nat.div2]. f_equal.
    apply IH. simpl in Hn. lia.
Qed.

Lemma words_length (bs : list byte) :
  List.length (words bs) = Nat.div2 (List.length bs).
Proof. apply (words_length_le (List.length bs)). lia. Qed.

Lemma struct_unpack_odd (bs : list byte) :
  Nat.odd (List.length bs) = true ->
  struct_unpack (repeat fH (Nat.shiftr (List.length bs) 1)) bs
  = Raise StructError.
Proof.
  intros Hodd.
  apply Nat.odd_spec in Hodd. destruct Hodd as [k Hk].
  assert (Hshift : Nat.shiftr (List.length bs) 1 = k).
  { rewrite <- Nat.div2_spec, Hk, Nat.add_1_r. apply Nat.div2_succ_double. }
  unfold struct_unpack.
  rewrite Hshift, calcsize_repeat_H, Hk.
  replace (2 * k + 1 =? 2 * k)%nat with false
    by (symmetry; apply Nat.eqb_neq; lia).
  reflexivity.
Qed.

Lemma length_cksum_buffer (ph rp : list byte) :
  exists k,
    List.length (ph ++ rp ++ (if Nat.even (List.length rp) then [] else [x00]))
    = (List.length ph + 2 * k)%nat
    /\ (List.length rp <= 2 * k <= List.length rp + 1)%nat.
Proof.
  rewrite !length_app.
  destruct (Nat.even (List.length rp)) eqn:E.
  - apply Nat.even_spec in E. destruct E as [k Hk].
    exists k. cbn [List.length]. lia.
  - assert (Ho : Nat.odd (List.length rp) = true)
      by (unfold Nat.odd; now rewrite E).
    apply Nat.odd_spec in Ho. destruct Ho as [k Hk].
    exists (k + 1)%nat. cbn [List.length]. lia.
Qed.

(** X10: on a packet that serializes to [rp], [compute_cksum] raises
    [struct.error] for every pseudo-header of odd length, raises
    [IndexError] for a pseudo-header of even length when pseudo-header and
    packet together have fewer than 19 bytes (word 9 does not exist), and
    returns a 16-bit value in every other case. *)
Theorem X10_udp_compute_cksum_needs_even_pseudo_header (p : ps_udp.UdpPacket)
    (ph rp : list byte) :
  ps_udp.raw_packet p = Ok rp ->
  (Nat.odd (List.length ph) = true ->
   ps_udp.compute_cksum p ph = Raise StructError)
  /\ (Nat.even (List.length ph) = true ->
      (List.length ph + List.length rp < 19)%nat ->
      ps_udp.compute_cksum p ph = Raise IndexError)
  /\ (Nat.even (List.length ph) = true ->
      (19 <= List.length ph + List.length rp)%nat ->
      exists c, ps_udp.compute_cksum p ph = Ok c /\ 0 <= c < 65536).
Proof.
  intros Hrp.
  unfold ps_udp.compute_cksum. rewrite Hrp. cbn [bind].
  rewrite land_1_parity.
  destruct (length_cksum_buffer ph rp) as (k & Hlen & Hk).
  set (buf := ph ++ rp ++ _) in *.
  split; [|split].
  - intros Hodd.
    rewrite struct_unpack_odd; [reflexivity|].
    apply Nat.odd_spec in Hodd. destruct Hodd as [j Hj].
    apply Nat.odd_spec. exists (j + k)%nat. lia.
  - intros Heven Hshort.
    apply Nat.even_spec in Heven. destruct Heven as [j Hj].
    assert (Hbuf : List.length buf = (2 * (j + k))%nat) by lia.
    rewrite struct_unpack_words
      by (apply Nat.even_spec; exists (j + k)%nat; exact Hbuf).
    cbn [bind]. unfold list_set.
    rewrite words_length, Hbuf, Nat.div2_double.
    replace (6 + 3 <? j + k)%nat with false
      by (symmetry; apply Nat.ltb_ge; lia).
    reflexivity.
  - intros Heven Hlong.
    apply Nat.even_spec in Heven. destruct Heven as [j Hj].
    assert (Hbuf : List.length buf = (2 * (j + k))%nat) by lia.
    rewrite struct_unpack_words
      by (apply Nat.even_spec; exists (j + k)%nat; exact Hbuf).
    cbn [bind]. unfold list_set.
    rewrite words_length, Hbuf, Nat.div2_double.
    replace (6 + 3 <? j + k)%nat with true
      by (symmetry; apply Nat.ltb_lt; lia).
    cbn [bind].
    eexists. split; [reflexivity|]. apply fold_complement_range.
Qed.

(** ** UDP: what [get_raw_packet] changes *)

Lemma udp_compute_cksum_serializes (p : ps_udp.UdpPacket) (ph : list byte)
    (c : Z) :
  ps_udp.compute_cksum p ph = Ok c -> exists rp, ps_udp.raw_packet p = Ok rp.
Proof.
  unfold ps_udp.compute_cksum.
  destruct (ps_udp.raw_packet p) as [rp|]; [eauto|discriminate].
Qed.

(** X12: whenever [get_raw_packet] returns, for any pseudo-header, the
    packet is left as it was but for the checksum field, which holds the
    result of [compute_cksum]; the bytes returned are 8 plus the payload
    length long, agree with [raw_packet] on the first 6 bytes, carry that
    checksum at offset 6 and the payload, without pad byte, from offset 8. *)
Theorem X12_udp_get_raw_packet_sets_cksum_only (p p' : ps_udp.UdpPacket)
    (ph rp' : list byte) :
  ps_udp.get_raw_packet p ph = Ok (p', rp') ->
  exists rp c,
    ps_udp.raw_packet p = Ok rp
    /\ ps_udp.compute_cksum p ph = Ok c
    /\ p' = ps_udp.set_udp_cksum p c
    /\ List.length rp' = (8 + List.length (ps_udp.raw_data p))%nat
    /\ List.length rp = List.length rp'
    /\ firstn 6 rp' = firstn 6 rp
    /\ unpack1 fH (slice 6 8 rp') = Ok c
    /\ skipn 8 rp' = ps_udp.raw_data p.
Proof.
  intros H.
  unfold ps_udp.get_raw_packet in H.
  destruct (ps_udp.compute_cksum p ph) as [c|] eqn:Ec; [|discriminate].
  cbn [bind] in H.
  pose proof (udp_compute_cksum_range p ph c Ec) as Hc.
  destruct (udp_compute_cksum_serializes p ph c Ec) as (rp & Hrp).
  destruct (udp_raw_packet_inv p rp Hrp)
    as (hs & hd & hl & hc & Hs & Hd & Hl & Hck & ->).
  rewrite (udp_raw_packet_eq (ps_udp.set_udp_cksum p c) hs hd hl (be_encode 2 c))
    in H; try assumption; [|now apply pack_item_H].
  cbn [bind] in H.
  assert (E : (ps_udp.set_udp_cksum p c,
               hs ++ hd ++ hl ++ be_encode 2 c
                 ++ ps_udp.raw_data (ps_udp.set_udp_cksum p c))
              = (p', rp')) by congruence.
  apply pair_equal_spec in E. destruct E as [<- <-].
  change (ps_udp.raw_data (ps_udp.set_udp_cksum p c)) with (ps_udp.raw_data p).
  destruct (pack_item_H_length _ _ Hs) as (s1 & s0 & ->).
  destruct (pack_item_H_length _ _ Hd) as (d1 & d0 & ->).
  destruct (pack_item_H_length _ _ Hl) as (l1 & l0 & ->).
  destruct (pack_item_H_length _ _ Hck) as (c1 & c0 & ->).
  eexists. exists c.
  split; [exact Hrp|]. split; [reflexivity|]. split; [reflexivity|].
  rewrite header_field_3 by reflexivity.
  rewrite unpack1_encode_2 by assumption.
  rewrite be_encode_2.
  repeat split.
Qed.

(** ** UDP: which built packets serialize *)

Lemma pack_item_H_ok_inv (v : pyval) (bs : list byte) :
  pack_item fH v = Ok bs -> exists z, v = PyInt z /\ 0 <= z < 65536.
Proof.
  destruct v as [|z]; unfold pack_item; [discriminate|].
  change (256 ^ Z.of_nat (size fH)) with 65536.
  destruct (0 <=? z) eqn:E1; destruct (z <? 65536) eqn:E2; cbn [andb];
    try discriminate.
  intros _. exists z.
  apply Z.leb_le in E1. apply Z.ltb_lt in E2. auto.
Qed.

Lemma udp_raw_packet_raises (p : ps_udp.UdpPacket) (e : exn) :
  ps_udp.raw_packet p = Raise e ->
  e = StructError
  /\ forall ph, ps_udp.get_raw_packet p ph = Raise e.
Proof.
  intros H. split.
  - unfold ps_udp.raw_packet, ps_udp.raw_header in H.
    destruct (struct_pack _ _) as [h|e'] eqn:Eh; [discriminate|].
    cbn [bind] in H. injection H as <-.
    now apply struct_pack_raises in Eh.
  - intros ph.
    unfold ps_udp.get_raw_packet, ps_udp.compute_cksum. now rewrite H.
Qed.

(** X14: a packet built from explicit fields serializes, by [raw_packet] and
    by [get_raw_packet] with a 12-byte pseudo-header, exactly when both
    ports are integers in the 16-bit range and the payload has at most 65527
    bytes; otherwise both raise [struct.error]. *)
Theorem X14_udp_built_packet_serializes_iff (sport dport : pyval)
    (data ph : list byte) (echo : option Tracker) (n : N) :
  List.length ph = 12%nat ->
  let fits :=
    exists s d,
      sport = PyInt s /\ dport = PyInt d
      /\ 0 <= s < 65536 /\ 0 <= d < 65536
      /\ Z.of_nat (List.length data) <= 65527 in
  exists p,
    ps_udp.init None sport dport (Some data) echo n = (Ok p, (n + 1)%N)
    /\ ((exists r, ps_udp.get_raw_packet p ph = Ok r) <-> fits)
    /\ ((exists rp, ps_udp.raw_packet p = Ok rp) <-> fits)
    /\ (~ fits ->
        ps_udp.raw_packet p = Raise StructError
        /\ ps_udp.get_raw_packet p ph = Raise StructError).
Proof.
  intros Hph fits.
  set (p := ps_udp.mkUdpPacket (mkTracker "TX" n echo) data None sport dport
              (8 + Z.of_nat (List.length data)) 0).
  assert (Hinit : ps_udp.init None sport dport (Some data) echo n
                  = (Ok p, (n + 1)%N)).
  { unfold ps_udp.init, ps_udp.init_build, Tracker_new, ps_udp.UDP_HEADER_LEN, p.
    now rewrite Nat2Z.inj_add. }
  assert (Hfwd : forall rp, ps_udp.raw_packet p = Ok rp -> fits).
  { intros rp Hrp.
    destruct (udp_raw_packet_inv p rp Hrp)
      as (hs & hd & hl & hc & Hs & Hd & Hl & _ & _).
    destruct (pack_item_H_ok_inv _ _ Hs) as (s & Es & Hsr).
    destruct (pack_item_H_ok_inv _ _ Hd) as (d & Ed & Hdr).
    destruct (pack_item_H_ok_inv _ _ Hl) as (l & El & Hlr).
    unfold p in Es, Ed, El.
    cbn [ps_udp.udp_sport ps_udp.udp_dport ps_udp.udp_len] in Es, Ed, El.
    assert (El' : 8 + Z.of_nat (List.length data) = l) by congruence.
    exists s, d. repeat split; try assumption; lia. }
  assert (Hbwd : fits ->
                 (exists r, ps_udp.get_raw_packet p ph = Ok r)
                 /\ exists rp, ps_udp.raw_packet p = Ok rp).
  { intros (s & d & -> & -> & Hs & Hd & Hlen).
    assert (Hg : exists r, ps_udp.get_raw_packet p ph = Ok r).
    { eexists. apply udp_built_get_raw_packet; try assumption. lia. }
    split; [exact Hg|].
    destruct Hg as (r & Hg).
    unfold ps_udp.get_raw_packet in Hg.
    destruct (ps_udp.compute_cksum _ ph) as [c|] eqn:Ec; [|discriminate].
    now apply udp_compute_cksum_serializes in Ec. }
  exists p. split; [exact Hinit|].
  split; [|split].
  - split; [|apply Hbwd].
    intros ([p' rp'] & Hg).
    unfold ps_udp.get_raw_packet in Hg.
    destruct (ps_udp.compute_cksum p ph) as [c|] eqn:Ec; [|discriminate].
    destruct (udp_compute_cksum_serializes p ph c Ec) as (rp & Hrp).
    now apply (Hfwd rp).
  - split; [intros [rp Hrp]; now apply (Hfwd rp) | apply Hbwd].
  - intros Hnot.
    destruct (ps_udp.raw_packet p) as [rp|e] eqn:Erp.
    + exfalso. apply Hnot. now apply (Hfwd rp).
    + destruct (udp_raw_packet_raises p e Erp) as [-> Hg].
      split; [reflexivity | apply Hg].
Qed.

(** ** Instances of the properties above *)

Lemma icmp4_echo_serialize_parse_witness :
  exists p' rp q,
    ps_icmpv4.get_raw_packet (fun _ => 0)
      (fst (ps_icmpv4.init_build (PyInt 0) 0 (PyInt 4660) (PyInt 1)
              (bytes_of [104; 105]) [] None 0%N))
    = Ok (p', rp)
    /\ ps_icmpv4.init_parse (mkParentPacket rx_tracker rp []) = Ok q
    /\ icmp4_fields q
       = icmp4_fields
           (fst (ps_icmpv4.init_build (PyInt 0) 0 (PyInt 4660) (PyInt 1)
                   (bytes_of [104; 105]) [] None 0%N)).
Proof.
  assert (Hty : 0 = 0 \/ 0 = 8) by (left; reflexivity).
  assert (Hid : 0 <= 4660 < 65536) by lia.
  assert (Hseq : 0 <= 1 < 65536) by lia.
  assert (Hcks : forall bs : list byte, 0 <= (fun _ : list byte => 0) bs < 65536)
    by (intros _; simpl; lia).
  pose proof (icmp4_echo_serialize_parse 0 4660 1 (bytes_of [104; 105]) [] []
                None 0%N rx_tracker (fun _ => 0) Hty Hid Hseq Hcks) as H.
  cbv zeta in H.
  destruct H as (p' & rp & q & H1 & H2 & H3 & _).
  exists p', rp, q. auto.
Defined.

Lemma X4_echo_reply_mirrors_request_witness :
  exists req rp,
    ps_icmpv4.init_parse sample_echo_request = Ok req
    /\ ps_icmpv4.icmpv4_type req = PyInt ps_icmpv4.ICMP4_ECHOREQUEST
    /\ List.length rp = List.length (pp_raw_data sample_echo_request)
    /\ firstn 2 rp = [x00; x00]
    /\ skipn 4 rp = skipn 4 (pp_raw_data sample_echo_request).
Proof.
  eexists.
  assert (Hp : ps_icmpv4.init_parse sample_echo_request = Ok _) by reflexivity.
  assert (Hcks : forall bs : list byte, 0 <= (fun _ : list byte => 0) bs < 65536)
    by (intros _; simpl; lia).
  destruct (X4_echo_reply_mirrors_request sample_echo_request _ 0%N
              (fun _ => 0) Hp eq_refl Hcks)
    as (id & seq & data & reply & reply' & rp & _ & _ & _ & _ & _ & Hl & Hf & Hs & _).
  exists rp. split; [exact Hp|]. split; [reflexivity|]. auto.
Defined.

Lemma X5_icmp4_get_raw_packet_sets_cksum_only_witness :
  ps_icmpv4.raw_packet
    (fst (ps_icmpv4.init_build (PyInt 3) 3 PyNone PyNone [] [] None 0%N))
  = Ok (bytes_of [3; 3; 0; 0; 0; 0; 0; 0])
  /\ exists rp',
       ps_icmpv4.get_raw_packet (fun _ => 4660)
         (fst (ps_icmpv4.init_build (PyInt 3) 3 PyNone PyNone [] [] None 0%N))
       = Ok (ps_icmpv4.set_icmpv4_cksum
               (fst (ps_icmpv4.init_build (PyInt 3) 3 PyNone PyNone [] []
                       None 0%N)) 4660,
             rp')
       /\ unpack1 fH (slice 2 4 rp') = Ok 4660
       /\ skipn 4 rp' = skipn 4 (bytes_of [3; 3; 0; 0; 0; 0; 0; 0]).
Proof.
  assert (Hrp : ps_icmpv4.raw_packet
                  (fst (ps_icmpv4.init_build (PyInt 3) 3 PyNone PyNone [] []
                          None 0%N))
                = Ok (bytes_of [3; 3; 0; 0; 0; 0; 0; 0])) by reflexivity.
  split; [exact Hrp|].
  pose proof (X5_icmp4_get_raw_packet_sets_cksum_only (fun _ => 4660) _ _ Hrp)
    as H.
  cbv zeta in H. destruct H as [_ H].
  destruct (H ltac:(lia)) as (rp' & Hg & _ & _ & Hu & Hs).
  exists rp'. auto.
Defined.

Lemma X8_udp_parsed_packet_is_buffer_prefix_witness :
  exists p,
    ps_udp.init_parse sample_udp_padded = Ok p
    /\ ps_udp.raw_packet p
       = Ok (bytes_of [0; 7; 0; 9; 0; 10; 0; 0; 104; 105])
    /\ ps_udp.__len__ p = Ok 10%nat.
Proof.
  eexists.
  assert (Hp : ps_udp.init_parse sample_udp_padded = Ok _) by reflexivity.
  pose proof (X8_udp_parsed_packet_is_buffer_prefix sample_udp_padded _ Hp)
    as H.
  cbv zeta in H. destruct H as (Hr & Hl & _).
  split; [exact Hp|]. split.
  - rewrite Hr. reflexivity.
  - rewrite Hl. reflexivity.
Defined.

Lemma udp_serialize_parse_witness :
  exists p' rp q,
    ps_udp.get_raw_packet
      (ps_udp.mkUdpPacket rx_tracker (bytes_of [104; 105]) None
         (PyInt 7) (PyInt 9) 10 0) sample_pseudo_header
    = Ok (p', rp)
    /\ ps_udp.init_parse (mkParentPacket rx_tracker rp []) = Ok q
    /\ udp_fields q
       = udp_fields
           (ps_udp.mkUdpPacket rx_tracker (bytes_of [104; 105]) None
              (PyInt 7) (PyInt 9) 10 0).
Proof.
  assert (Hs : 0 <= 7 < 65536) by lia.
  assert (Hd : 0 <= 9 < 65536) by lia.
  assert (Hl : Z.of_nat (List.length (bytes_of [104; 105])) <= 65527)
    by (simpl; lia).
  assert (Hc : 0 <= 0 < 65536) by lia.
  assert (Hp : List.length sample_pseudo_header = 12%nat) by reflexivity.
  pose proof (udp_serialize_parse 7 9 (bytes_of [104; 105])
                sample_pseudo_header [] rx_tracker rx_tracker 0
                Hs Hd Hl Hc Hp) as H.
  cbv zeta in H.
  destruct H as (p' & rp & q & H1 & H2 & H3 & _).
  exists p', rp, q. auto.
Defined.

Lemma X10_udp_compute_cksum_needs_even_pseudo_header_witness :
  ps_udp.raw_packet
    (ps_udp.mkUdpPacket rx_tracker [] None (PyInt 7) (PyInt 9) 8 0)
  = Ok (bytes_of [0; 7; 0; 9; 0; 8; 0; 0])
  /\ ps_udp.compute_cksum
       (ps_udp.mkUdpPacket rx_tracker [] None (PyInt 7) (PyInt 9) 8 0) [x00]
     = Raise StructError
  /\ ps_udp.compute_cksum
       (ps_udp.mkUdpPacket rx_tracker [] None (PyInt 7) (PyInt 9) 8 0) []
     = Raise IndexError
  /\ exists c,
       ps_udp.compute_cksum
         (ps_udp.mkUdpPacket rx_tracker [] None (PyInt 7) (PyInt 9) 8 0)
         sample_pseudo_header
       = Ok c
       /\ 0 <= c < 65536.
Proof.
  assert (Hrp : ps_udp.raw_packet
                  (ps_udp.mkUdpPacket rx_tracker [] None (PyInt 7) (PyInt 9) 8 0)
                = Ok (bytes_of [0; 7; 0; 9; 0; 8; 0; 0])) by reflexivity.
  split; [exact Hrp|].
  split; [|split].
  - apply (proj1 (X10_udp_compute_cksum_needs_even_pseudo_header _ [x00] _ Hrp)).
    reflexivity.
  - apply (proj1 (proj2 (X10_udp_compute_cksum_needs_even_pseudo_header
                           _ [] _ Hrp))).
    + reflexivity.
    + simpl. lia.
  - apply (proj2 (proj2 (X10_udp_compute_cksum_needs_even_pseudo_header
                           _ sample_pseudo_header _ Hrp))).
    + reflexivity.
    + simpl. lia.
Defined.

Lemma udp_sent_cksum_verifies_witness :
  exists p p' rp,
    ps_udp.init None (PyInt 24576) (PyInt 3206) (Some []) None 0%N
    = (Ok p, 1%N)
    /\ ps_udp.get_raw_packet p sample_pseudo_header = Ok (p', rp)
    /\ cksum_of (sample_pseudo_header ++ rp ++ pad rp) = 0xFFFF.
Proof.
  assert (Hs : 0 <= 24576 < 65536) by lia.
  assert (Hd : 0 <= 3206 < 65536) by lia.
  assert (Hl : Z.of_nat (@List.length byte []) <= 65527) by (simpl; lia).
  assert (Hp : List.length sample_pseudo_header = 12%nat) by reflexivity.
  pose proof (udp_sent_cksum_verifies 24576 3206 [] sample_pseudo_header
                None 0%N Hs Hd Hl Hp) as H.
  cbv zeta in H.
  destruct H as (p & p' & rp & H1 & H2 & H3).
  exists p, p', rp. split; [exact H1|]. split; [exact H2|].
  rewrite H3. vm_compute. reflexivity.
Defined.

Lemma X12_udp_get_raw_packet_sets_cksum_only_witness :
  exists p' rp' rp c,
    ps_udp.get_raw_packet
      (ps_udp.mkUdpPacket rx_tracker (bytes_of [104; 105]) None
         (PyInt 7) (PyInt 9) 10 0) sample_pseudo_header
    = Ok (p', rp')
    /\ ps_udp.raw_packet
         (ps_udp.mkUdpPacket rx_tracker (bytes_of [104; 105]) None
            (PyInt 7) (PyInt 9) 10 0)
       = Ok rp
    /\ firstn 6 rp' = firstn 6 rp
    /\ unpack1 fH (slice 6 8 rp') = Ok c
    /\ skipn 8 rp' = bytes_of [104; 105].
Proof.
  do 2 eexists.
  assert (Hg : ps_udp.get_raw_packet
                 (ps_udp.mkUdpPacket rx_tracker (bytes_of [104; 105]) None
                    (PyInt 7) (PyInt 9) 10 0) sample_pseudo_header
               = Ok (_, _)) by (vm_compute; reflexivity).
  destruct (X12_udp_get_raw_packet_sets_cksum_only _ _ _ _ Hg)
    as (rp & c & Hr & _ & _ & _ & _ & Hf & Hu & Hs).
  exists rp, c. repeat split; assumption.
Defined.

Lemma X14_udp_built_packet_serializes_iff_witness :
  List.length sample_pseudo_header = 12%nat
  /\ exists p,
       ps_udp.init None (PyInt 7) (PyInt 9) (Some (bytes_of [104; 105])) None 0%N
       = (Ok p, 1%N)
       /\ exists r, ps_udp.get_raw_packet p sample_pseudo_header = Ok r.
Proof.
  assert (Hp : List.length sample_pseudo_header = 12%nat) by reflexivity.
  split; [exact Hp|].
  pose proof (X14_udp_built_packet_serializes_iff (PyInt 7) (PyInt 9)
                (bytes_of [104; 105]) sample_pseudo_header None 0%N Hp) as H.
  cbv zeta in H.
  destruct H as (p & Hi & Hiff & _).
  exists p. split; [exact Hi|].
  apply Hiff. exists 7, 9. repeat split; simpl; lia.
Defined.

(** ** UDP: the length field of a serialized packet *)






